(** * terraform-provider-sonatypeiq: the resource reconcilers

    A shallow embedding of the two resources of [internal/provider]:
    [source_control_resource.go] and
    [application_role_membership_resource.go].  Each handler (Create, Read,
    Delete) is a function from the decoded plan or prior state and the
    remote client to the list of API calls it issued and the response it
    left behind, or a runtime panic. *)

From Stdlib Require Import String Ascii List Bool Arith Lia Permutation.
Import ListNotations.
Open Scope string_scope.
Open Scope list_scope.

(** ** Go runtime: a nil dereference panics *)

Module Go.

Inductive Exec (A : Type) : Type :=
| Panic : Exec A
| Ok : A -> Exec A.
Arguments Panic {A}.
Arguments Ok {A} _.

Definition bind {A B} (m : Exec A) (k : A -> Exec B) : Exec B :=
  match m with
  | Panic => Panic
  | Ok a => k a
  end.

(** [*p] for a pointer [p]; [None] is the nil pointer. *)
Definition deref {A} (p : option A) : Exec A :=
  match p with
  | None => Panic
  | Some a => Ok a
  end.

(** An [error] value is carried by the text of its [Error()] method;
    [None] is the nil error. *)
Definition error := option string.

End Go.

Notation "x <- m ;; k" := (Go.bind m (fun x => k))
  (at level 61, m at next level, right associativity).

(** ** terraform-plugin-framework values, diagnostics and state *)

Module types.

(** [types.String]: null, unknown or a known value. *)
Inductive String : Type :=
| StringNull
| StringUnknown
| StringValue (s : string).

Inductive Bool : Type :=
| BoolNull
| BoolUnknown
| BoolValue (b : bool).

Definition IsNull (s : String) : bool :=
  match s with StringNull => true | _ => false end.

Definition IsUnknown (s : String) : bool :=
  match s with StringUnknown => true | _ => false end.

(** [ValueString] is the empty string for null and unknown. *)
Definition ValueString (s : String) : string :=
  match s with StringValue v => v | _ => "" end.

(** [ValueStringPointer] is nil for null only. *)
Definition ValueStringPointer (s : String) : option string :=
  match s with
  | StringNull => None
  | StringUnknown => Some ""
  | StringValue v => Some v
  end.

Definition ValueBoolPointer (b : Bool) : option bool :=
  match b with
  | BoolNull => None
  | BoolUnknown => Some false
  | BoolValue v => Some v
  end.

End types.

Module diag.

Inductive Severity := SeverityError | SeverityWarning.

Record Diagnostic := {
  Severity_ : Severity;
  Summary : string;
  Detail : string
}.

Definition Diagnostics := list Diagnostic.

Definition isError (d : Diagnostic) : bool :=
  match Severity_ d with SeverityError => true | SeverityWarning => false end.

Definition HasError (ds : Diagnostics) : bool := existsb isError ds.

Definition AddError (ds : Diagnostics) (summary detail : string) : Diagnostics :=
  ds ++ [ {| Severity_ := SeverityError; Summary := summary; Detail := detail |} ].

Definition Append (ds more : Diagnostics) : Diagnostics := ds ++ more.

End diag.

Module resource.

(** What a handler did to [resp.State]: nothing, [State.Set] that took
    effect, or [State.RemoveResource]. *)
Inductive StateOp (M : Type) : Type :=
| Untouched
| Stored (m : M)
| Removed.
Arguments Untouched {M}.
Arguments Stored {M} _.
Arguments Removed {M}.

Record Response (M : Type) := {
  Diagnostics : diag.Diagnostics;
  State : StateOp M
}.
Arguments Diagnostics {M} _.
Arguments State {M} _.

(** The host side of one invocation: the diagnostics of decoding the plan
    or prior state into the model ([req.Plan.Get], [req.State.Get]) and
    those of encoding the model back ([resp.State.Set]).  [State.Set]
    replaces the state only when it reports no error. *)
Record Host := {
  GetDiags : diag.Diagnostics;
  SetDiags : diag.Diagnostics
}.

Definition StateSet {M} (h : Host) (ds : diag.Diagnostics) (m : M) : Response M :=
  {| Diagnostics := diag.Append ds (SetDiags h);
     State := if diag.HasError (SetDiags h) then Untouched else Stored m |}.

End resource.

Module http.

Definition StatusNotFound : nat := 404.

(** [*http.Response]: the status line, the status code and the body as
    [io.ReadAll] returns it. *)
Record Response := {
  Status : string;
  StatusCode : nat;
  Body : string
}.

End http.

(** ** The generated API client (nexus-iq-api-client-go) *)

Module sonatypeiq.

Record ApiSourceControlDTO := {
  Id : option string;
  RepositoryUrl : option string;
  Token : option string;
  Provider : option string;
  BaseBranch : option string;
  EnablePullRequests : option bool;
  RemediationPullRequestsEnabled : option bool;
  PullRequestCommentingEnabled : option bool;
  SourceControlEvaluationsEnabled : option bool
}.

(** The generated getters accept a nil receiver and a nil field and then
    return the zero value. *)
Definition getString (f : ApiSourceControlDTO -> option string)
           (o : option ApiSourceControlDTO) : string :=
  match o with
  | Some d => match f d with Some v => v | None => "" end
  | None => ""
  end.

Definition getBool (f : ApiSourceControlDTO -> option bool)
           (o : option ApiSourceControlDTO) : bool :=
  match o with
  | Some d => match f d with Some v => v | None => false end
  | None => false
  end.

Definition GetId := getString Id.
Definition GetRepositoryUrl := getString RepositoryUrl.
Definition GetToken := getString Token.
Definition GetBaseBranch := getString BaseBranch.
Definition GetProvider := getString Provider.
Definition GetRemediationPullRequestsEnabled := getBool RemediationPullRequestsEnabled.
Definition GetPullRequestCommentingEnabled := getBool PullRequestCommentingEnabled.
Definition GetSourceControlEvaluationsEnabled := getBool SourceControlEvaluationsEnabled.

Record ApiMemberDTO := {
  Type_ : option string;
  UserOrGroupName : option string;
  OwnerType : option string;
  OwnerId : option string
}.

Record ApiRoleMemberMappingDTO := {
  RoleId : option string;
  Members : list ApiMemberDTO
}.

Record ApiRoleMemberMappingListDTO := {
  MemberMappings : list ApiRoleMemberMappingDTO
}.

(** Request values.  A request is a struct passed by value; the builder
    method [ApiSourceControlDTO] returns the request with the payload
    attached and leaves its receiver as it was, which is why the update
    code kept for reference in [application_role_membership_resource.go]
    assigns the result of such a call back to the request. *)
Record ApiAddSourceControlRequest := {
  add_ownerType : string;
  add_internalOwnerId : string;
  apiSourceControlDTO : option ApiSourceControlDTO
}.

Definition AddSourceControl (ownerType internalOwnerId : string)
  : ApiAddSourceControlRequest :=
  {| add_ownerType := ownerType;
     add_internalOwnerId := internalOwnerId;
     apiSourceControlDTO := None |}.

Definition WithApiSourceControlDTO (r : ApiAddSourceControlRequest)
           (d : ApiSourceControlDTO) : ApiAddSourceControlRequest :=
  {| add_ownerType := add_ownerType r;
     add_internalOwnerId := add_internalOwnerId r;
     apiSourceControlDTO := Some d |}.

Record OwnerRequest := {
  ownerType : string;
  internalOwnerId : string
}.

Record MembershipRequest := {
  m_ownerType : string;
  m_internalOwnerId : string;
  m_roleId : string;
  m_memberType : string;
  m_memberName : string
}.

(** One remote call, as the client's [...Execute] methods receive it. *)
Inductive Call :=
| CallAddSourceControl (r : ApiAddSourceControlRequest)
| CallGetSourceControl1 (r : OwnerRequest)
| CallDeleteSourceControl (r : OwnerRequest)
| CallGrantRoleMembershipApplicationOrOrganization (r : MembershipRequest)
| CallGetRoleMembershipsApplicationOrOrganization (r : OwnerRequest)
| CallRevokeRoleMembershipApplicationOrOrganization (r : MembershipRequest).

(** The remote service behind the client: each [Execute] returns the
    decoded value (where there is one), the HTTP response (nil when the
    call never completed) and the error. *)
Record APIClient := {
  AddSourceControlExecute :
    ApiAddSourceControlRequest ->
    option ApiSourceControlDTO * option http.Response * Go.error;
  GetSourceControl1Execute :
    OwnerRequest ->
    option ApiSourceControlDTO * option http.Response * Go.error;
  DeleteSourceControlExecute :
    OwnerRequest -> option http.Response * Go.error;
  GrantRoleMembershipApplicationOrOrganizationExecute :
    MembershipRequest -> option http.Response * Go.error;
  GetRoleMembershipsApplicationOrOrganizationExecute :
    OwnerRequest ->
    option ApiRoleMemberMappingListDTO * option http.Response * Go.error;
  RevokeRoleMembershipApplicationOrOrganizationExecute :
    MembershipRequest -> option http.Response * Go.error
}.

End sonatypeiq.

(** What one handler invocation leaves behind: the calls it issued, in
    order, and its response, unless it panicked. *)
Record Run (M : Type) := {
  calls : list sonatypeiq.Call;
  outcome : Go.Exec (resource.Response M)
}.
Arguments calls {M} _.
Arguments outcome {M} _.

Definition done {M} (cs : list sonatypeiq.Call) (ds : diag.Diagnostics)
           (st : resource.StateOp M) : Run M :=
  {| calls := cs;
     outcome := Go.Ok {| resource.Diagnostics := ds; resource.State := st |} |}.

Definition finish {M} (cs : list sonatypeiq.Call) (r : resource.Response M) : Run M :=
  {| calls := cs; outcome := Go.Ok r |}.

Definition panic {M} (cs : list sonatypeiq.Call) : Run M :=
  {| calls := cs; outcome := Go.Panic |}.

(** The record the invocation persisted, if any. *)
Definition persisted {M} (r : Run M) : option M :=
  match outcome r with
  | Go.Ok resp =>
      match resource.State resp with
      | resource.Stored m => Some m
      | _ => None
      end
  | Go.Panic => None
  end.

(** The invocation failed: an error diagnostic or a panic. *)
Definition raised {M} (r : Run M) : bool :=
  match outcome r with
  | Go.Ok resp => diag.HasError (resource.Diagnostics resp)
  | Go.Panic => true
  end.

(** ** Configuration validators *)

Module resourcevalidator.

Inductive AttrState := AttrNull | AttrUnknown | AttrKnown.

Definition ofString (s : types.String) : AttrState :=
  match s with
  | types.StringNull => AttrNull
  | types.StringUnknown => AttrUnknown
  | types.StringValue _ => AttrKnown
  end.

Definition ofBool (b : types.Bool) : AttrState :=
  match b with
  | types.BoolNull => AttrNull
  | types.BoolUnknown => AttrUnknown
  | types.BoolValue _ => AttrKnown
  end.

(** The configuration block: root attribute name to the state of its
    value. *)
Definition Config := list (string * AttrState).

Fixpoint GetAttribute (c : Config) (name : string) : option AttrState :=
  match c with
  | [] => None
  | (k, v) :: rest => if String.eqb k name then Some v else GetAttribute rest name
  end.

(** [ExactlyOneOf(path.MatchRoot(a), path.MatchRoot(b), ...)]. *)
Inductive ConfigValidator := ExactlyOneOf (paths : list string).

Fixpoint collect (c : Config) (paths : list string)
         (configured unknown : nat) (ds : diag.Diagnostics)
  : nat * nat * diag.Diagnostics :=
  match paths with
  | [] => (configured, unknown, ds)
  | p :: rest =>
      match GetAttribute c p with
      | None =>
          collect c rest configured unknown
                  (diag.AddError ds "Invalid Path Expression for Schema" p)
      | Some AttrUnknown => collect c rest configured (S unknown) ds
      | Some AttrNull => collect c rest configured unknown ds
      | Some AttrKnown => collect c rest (S configured) unknown ds
      end
  end.

(** Modelled from the spec: the validator itself belongs to the host
    framework's validator library, which is not among the repository's
    sources.  "Exactly one of the two discriminant fields must be
    populated; supplying zero or two must be rejected": a block with no
    listed attribute configured, or with more than one, gets an error
    diagnostic.  An unknown value, on which the spec is silent, postpones
    the missing-attribute check, as the library documents. *)
Definition Validate (v : ConfigValidator) (c : Config) : diag.Diagnostics :=
  match v with
  | ExactlyOneOf paths =>
      let '(configured, unknown, ds) := collect c paths 0 0 [] in
      let ds :=
        if Nat.eqb configured 0 && Nat.eqb unknown 0
        then diag.AddError ds "Missing Attribute Configuration"
                           "Exactly one of these attributes must be configured"
        else ds in
      if Nat.ltb 1 configured
      then diag.AddError ds "Invalid Attribute Combination"
                         "Exactly one of these attributes must be configured"
      else ds
  end.

Definition ValidateConfig (vs : list ConfigValidator) (c : Config)
  : diag.Diagnostics :=
  flat_map (fun v => Validate v c) vs.

(** Modelled from the spec: the host's ordering of validation and
    reconciliation is not among the repository's sources.  The
    mutual-exclusivity constraint is "enforced before any reconciler
    runs"; a validation error is "surfaced before any network call,
    blocking the operation entirely". *)
Definition Apply {M} (vs : list ConfigValidator) (c : Config)
           (reconcile : Run M) : Run M :=
  let ds := ValidateConfig vs c in
  if diag.HasError ds then done [] ds resource.Untouched else reconcile.

End resourcevalidator.

(** ** Resource schemas *)

Module schema.

(** The kind of value an attribute or a model field holds. *)
Inductive Kind := KString | KBool.

(** [schema.StringAttribute{...}], the only attribute type the two
    resources declare. *)
Record StringAttribute := {
  Required : bool;
  Optional : bool;
  Computed : bool;
  Description : string
}.


(** [schema.Schema{Attributes: map[string]schema.Attribute{...}}], in the
    order of the literal. *)
Definition Schema := list (string * StringAttribute).




End schema.

(** ** source_control_resource.go *)

Module SourceControl.

Record sourceControlModelResource := {
  ID : types.String;
  OrganizationID : types.String;
  ApplicationID : types.String;
  RepositoryURL : types.String;
  Token : types.String;
  BaseBranch : types.String;
  Provider : types.String;
  RemediationPullRequestsEnabled : types.Bool;
  PullRequestCommentingEnabled : types.Bool;
  SourceControlEvaluationsEnabled : types.Bool
}.

(** The block as the validators see it, by the [tfsdk] tags. *)
Definition config (data : sourceControlModelResource) : resourcevalidator.Config :=
  [ ("id", resourcevalidator.ofString (ID data));
    ("organization_id", resourcevalidator.ofString (OrganizationID data));
    ("application_id", resourcevalidator.ofString (ApplicationID data));
    ("repository_url", resourcevalidator.ofString (RepositoryURL data));
    ("token", resourcevalidator.ofString (Token data));
    ("base_branch", resourcevalidator.ofString (BaseBranch data));
    ("provider", resourcevalidator.ofString (Provider data));
    ("remediation_pull_requests_enabled",
      resourcevalidator.ofBool (RemediationPullRequestsEnabled data));
    ("pull_request_commenting_enabled",
      resourcevalidator.ofBool (PullRequestCommentingEnabled data));
    ("source_control_evaluations_enabled",
      resourcevalidator.ofBool (SourceControlEvaluationsEnabled data)) ].

Definition ConfigValidators : list resourcevalidator.ConfigValidator :=
  [ resourcevalidator.ExactlyOneOf [ "organization_id"; "application_id" ] ].

(** The owner type and owner id, as each handler determines them. *)
Definition owner (data : sourceControlModelResource) : string * string :=
  if negb (types.IsNull (ApplicationID data))
  then ("application", types.ValueString (ApplicationID data))
  else ("organization", types.ValueString (OrganizationID data)).

(** The request of [GetSourceControl1] and [DeleteSourceControl]. *)
Definition ownerRequest (data : sourceControlModelResource)
  : sonatypeiq.OwnerRequest :=
  let '(ownerType, internalOwnerId) := owner data in
  {| sonatypeiq.ownerType := ownerType;
     sonatypeiq.internalOwnerId := internalOwnerId |}.

(** The [sonatypeiq.ApiSourceControlDTO] literal of [Create]. *)
Definition payload (data : sourceControlModelResource)
  : sonatypeiq.ApiSourceControlDTO :=
  {| sonatypeiq.Id := None;
     sonatypeiq.BaseBranch := types.ValueStringPointer (BaseBranch data);
     sonatypeiq.RepositoryUrl := types.ValueStringPointer (RepositoryURL data);
     sonatypeiq.Token := types.ValueStringPointer (Token data);
     sonatypeiq.Provider := types.ValueStringPointer (Provider data);
     sonatypeiq.EnablePullRequests :=
       types.ValueBoolPointer (PullRequestCommentingEnabled data);
     sonatypeiq.RemediationPullRequestsEnabled :=
       types.ValueBoolPointer (RemediationPullRequestsEnabled data);
     sonatypeiq.PullRequestCommentingEnabled := None;
     sonatypeiq.SourceControlEvaluationsEnabled :=
       types.ValueBoolPointer (SourceControlEvaluationsEnabled data) |}.

Definition withID (data : sourceControlModelResource) (id : types.String)
  : sourceControlModelResource :=
  {| ID := id;
     OrganizationID := OrganizationID data;
     ApplicationID := ApplicationID data;
     RepositoryURL := RepositoryURL data;
     Token := Token data;
     BaseBranch := BaseBranch data;
     Provider := Provider data;
     RemediationPullRequestsEnabled := RemediationPullRequestsEnabled data;
     PullRequestCommentingEnabled := PullRequestCommentingEnabled data;
     SourceControlEvaluationsEnabled := SourceControlEvaluationsEnabled data |}.

(** The request [Create] hands to [AddSourceControlExecute].  The builder
    call [apiRequest.ApiSourceControlDTO(apiSourceControlDTO)] is a
    statement whose result is dropped, so [apiRequest] is executed as
    [AddSourceControl] returned it. *)
Definition createRequest (data : sourceControlModelResource)
  : sonatypeiq.ApiAddSourceControlRequest :=
  let '(ownerType, internalOwnerId) := owner data in
  let apiSourceControlDTO := payload data in
  let apiRequest := sonatypeiq.AddSourceControl ownerType internalOwnerId in
  let _ := sonatypeiq.WithApiSourceControlDTO apiRequest apiSourceControlDTO in
  apiRequest.

Definition Create (host : resource.Host) (client : sonatypeiq.APIClient)
           (data : sourceControlModelResource) : Run sourceControlModelResource :=
  let diags := resource.GetDiags host in
  if diag.HasError diags then done [] diags resource.Untouched
  else
    let apiRequest := createRequest data in
    let '(dto, apiResponse, err) :=
      sonatypeiq.AddSourceControlExecute client apiRequest in
    let trace := [ sonatypeiq.CallAddSourceControl apiRequest ] in
    match err with
    | Some _ =>
        match apiResponse with
        | None => panic trace
        | Some r =>
            done trace
                 (diag.AddError diags
                    "Error creating source control entry"
                    ("Could not create source control entry, unexpected error: "
                       ++ http.Status r ++ ": " ++ http.Body r))
                 resource.Untouched
        end
    | None =>
        let data := withID data (types.StringValue (sonatypeiq.GetId dto)) in
        finish trace (resource.StateSet host diags data)
    end.

Definition Read (host : resource.Host) (client : sonatypeiq.APIClient)
           (data : sourceControlModelResource) : Run sourceControlModelResource :=
  let diags := resource.GetDiags host in
  if diag.HasError diags then done [] diags resource.Untouched
  else
    let apiRequest := ownerRequest data in
    let '(dto, apiResponse, err) :=
      sonatypeiq.GetSourceControl1Execute client apiRequest in
    let trace := [ sonatypeiq.CallGetSourceControl1 apiRequest ] in
    match err with
    | Some e =>
        match apiResponse with
        | None => panic trace
        | Some r =>
            if Nat.eqb (http.StatusCode r) http.StatusNotFound
            then done trace diags resource.Removed
            else
              done trace
                   (diag.AddError diags
                      "Error Reading source control entry"
                      ("Could not read source control entry with ID "
                         ++ types.ValueString (ID data) ++ ": " ++ e))
                   resource.Untouched
        end
    | None =>
        let data :=
          {| ID := types.StringValue (sonatypeiq.GetId dto);
             OrganizationID := OrganizationID data;
             ApplicationID := ApplicationID data;
             RepositoryURL := types.StringValue (sonatypeiq.GetRepositoryUrl dto);
             Token := types.StringValue (sonatypeiq.GetToken dto);
             BaseBranch := types.StringValue (sonatypeiq.GetBaseBranch dto);
             Provider := types.StringValue (sonatypeiq.GetProvider dto);
             RemediationPullRequestsEnabled :=
               types.BoolValue (sonatypeiq.GetRemediationPullRequestsEnabled dto);
             PullRequestCommentingEnabled :=
               types.BoolValue (sonatypeiq.GetPullRequestCommentingEnabled dto);
             SourceControlEvaluationsEnabled :=
               types.BoolValue (sonatypeiq.GetSourceControlEvaluationsEnabled dto) |} in
        finish trace (resource.StateSet host diags data)
    end.

Definition Delete (host : resource.Host) (client : sonatypeiq.APIClient)
           (data : sourceControlModelResource) : Run sourceControlModelResource :=
  let diags := resource.GetDiags host in
  if diag.HasError diags then done [] diags resource.Untouched
  else
    let apiRequest := ownerRequest data in
    let '(apiResponse, err) :=
      sonatypeiq.DeleteSourceControlExecute client apiRequest in
    let trace := [ sonatypeiq.CallDeleteSourceControl apiRequest ] in
    match err with
    | Some _ =>
        match apiResponse with
        | None => panic trace
        | Some r =>
            done trace
                 (diag.AddError diags
                    "Error deleting source control entry"
                    ("Could not delete source control entry, unexpected error: "
                       ++ http.Status r ++ ": " ++ http.Body r))
                 resource.Untouched
        end
    | None => done trace diags resource.Untouched
    end.

(** [Metadata]: the resource type name. *)
Definition Metadata (ProviderTypeName : string) : string :=
  ProviderTypeName ++ "_source_control".

Definition Schema : schema.Schema :=
  [ ("id",
     {| schema.Required := false; schema.Optional := false;
        schema.Computed := true; schema.Description := "" |});
    ("organization_id",
     {| schema.Required := false; schema.Optional := true;
        schema.Computed := false;
        schema.Description :=
          "The organization ID (mutually exclusive with application_id, one of them is required)" |});
    ("application_id",
     {| schema.Required := false; schema.Optional := true;
        schema.Computed := false;
        schema.Description :=
          "The application ID (mutually exclusive with organization_id, one of them is required)" |});
    ("repository_url",
     {| schema.Required := false; schema.Optional := true;
        schema.Computed := false;
        schema.Description :=
          "HTTP(S) or SSH URL for the SCM system (only valid for applications)" |});
    ("provider",
     {| schema.Required := false; schema.Optional := true;
        schema.Computed := false;
        schema.Description :=
          "The SCM provider (required for the root organization)" |});
    ("token",
     {| schema.Required := false; schema.Optional := true;
        schema.Computed := false;
        schema.Description :=
          "The access token for the SCM system (required for the root organization)" |});
    ("base_branch",
     {| schema.Required := false; schema.Optional := true;
        schema.Computed := false;
        schema.Description :=
          "The base branch for the repository (required for the root organization)" |});
    ("remediation_pull_requests_enabled",
     {| schema.Required := false; schema.Optional := true;
        schema.Computed := false;
        schema.Description :=
          "Set to true to enable the Automated Pull Requests feature" |});
    ("pull_request_commenting_enabled",
     {| schema.Required := false; schema.Optional := true;
        schema.Computed := false;
        schema.Description :=
          "Set to true to enable the Pull Request Commenting feature." |});
    ("source_control_evaluations_enabled",
     {| schema.Required := false; schema.Optional := true;
        schema.Computed := false;
        schema.Description :=
          "Set to true to enable Nexus IQ triggered source control evaluations" |}) ].

(** The fields of [sourceControlModelResource]: [tfsdk] tag and type. *)
Definition fields : list (string * schema.Kind) :=
  [ ("id", schema.KString);
    ("organization_id", schema.KString);
    ("application_id", schema.KString);
    ("repository_url", schema.KString);
    ("token", schema.KString);
    ("base_branch", schema.KString);
    ("provider", schema.KString);
    ("remediation_pull_requests_enabled", schema.KBool);
    ("pull_request_commenting_enabled", schema.KBool);
    ("source_control_evaluations_enabled", schema.KBool) ].

End SourceControl.

(** ** application_role_membership_resource.go *)

Module Membership.

Record applicationRoleMembershipModelResource := {
  ID : types.String;
  RoleId : types.String;
  ApplicationId : types.String;
  UserName : types.String;
  GroupName : types.String
}.

Definition config (data : applicationRoleMembershipModelResource)
  : resourcevalidator.Config :=
  [ ("id", resourcevalidator.ofString (ID data));
    ("role_id", resourcevalidator.ofString (RoleId data));
    ("application_id", resourcevalidator.ofString (ApplicationId data));
    ("user_name", resourcevalidator.ofString (UserName data));
    ("group_name", resourcevalidator.ofString (GroupName data)) ].

Definition ConfigValidators : list resourcevalidator.ConfigValidator :=
  [ resourcevalidator.ExactlyOneOf [ "user_name"; "group_name" ] ].

(** The member type and member name; [Create] and [Delete] use the
    tokens "group" and "user", [Read] uses "GROUP" and "USER". *)
Definition member (group user : string)
           (data : applicationRoleMembershipModelResource) : string * string :=
  if negb (types.IsNull (GroupName data))
  then (group, types.ValueString (GroupName data))
  else (user, types.ValueString (UserName data)).

(** [fmt.Sprintf("%s_%s_%s_%s", a, b, c, d)]. *)
Definition Sprintf4 (a b c d : string) : string :=
  a ++ "_" ++ b ++ "_" ++ c ++ "_" ++ d.

Definition withID (data : applicationRoleMembershipModelResource)
           (id : types.String) : applicationRoleMembershipModelResource :=
  {| ID := id;
     RoleId := RoleId data;
     ApplicationId := ApplicationId data;
     UserName := UserName data;
     GroupName := GroupName data |}.

Definition memberRequest (data : applicationRoleMembershipModelResource)
           (memberType memberName : string) : sonatypeiq.MembershipRequest :=
  {| sonatypeiq.m_ownerType := "application";
     sonatypeiq.m_internalOwnerId := types.ValueString (ApplicationId data);
     sonatypeiq.m_roleId := types.ValueString (RoleId data);
     sonatypeiq.m_memberType := memberType;
     sonatypeiq.m_memberName := memberName |}.

(** The request of the grant and revoke calls. *)
Definition grantRequest (data : applicationRoleMembershipModelResource)
  : sonatypeiq.MembershipRequest :=
  let '(memberType, memberName) := member "group" "user" data in
  memberRequest data memberType memberName.

(** The request of the list call. *)
Definition listRequest (data : applicationRoleMembershipModelResource)
  : sonatypeiq.OwnerRequest :=
  {| sonatypeiq.ownerType := "application";
     sonatypeiq.internalOwnerId := types.ValueString (ApplicationId data) |}.

Definition Create (host : resource.Host) (client : sonatypeiq.APIClient)
           (data : applicationRoleMembershipModelResource)
  : Run applicationRoleMembershipModelResource :=
  let diags := resource.GetDiags host in
  if diag.HasError diags then done [] diags resource.Untouched
  else
    let '(memberType, memberName) := member "group" "user" data in
    let apiRequest := memberRequest data memberType memberName in
    let '(apiResponse, err) :=
      sonatypeiq.GrantRoleMembershipApplicationOrOrganizationExecute
        client apiRequest in
    let trace :=
      [ sonatypeiq.CallGrantRoleMembershipApplicationOrOrganization apiRequest ] in
    match err with
    | Some _ =>
        match apiResponse with
        | None => panic trace
        | Some r =>
            done trace
                 (diag.AddError diags
                    "Error creating application role membership"
                    ("Could not create application role membership, unexpected error: "
                       ++ http.Status r ++ ": " ++ http.Body r))
                 resource.Untouched
        end
    | None =>
        let data :=
          withID data
            (types.StringValue
               (Sprintf4 (types.ValueString (ApplicationId data))
                         (types.ValueString (RoleId data))
                         memberType memberName)) in
        finish trace (resource.StateSet host diags data)
    end.

(** The position of a member in the listing: the index of its mapping in
    [MemberMappings] and its own index in [Members]. *)
Definition Ref := (nat * nat)%type.

(** The condition of the inner [if]; [&&] evaluates left to right and
    stops at the first false operand, each operand dereferences one
    field. *)
Definition memberMatches (data : applicationRoleMembershipModelResource)
           (memberType memberName : string) (member : sonatypeiq.ApiMemberDTO)
  : Go.Exec bool :=
  t <- Go.deref (sonatypeiq.Type_ member) ;;
  if negb (String.eqb t memberType) then Go.Ok false else
  n <- Go.deref (sonatypeiq.UserOrGroupName member) ;;
  if negb (String.eqb n memberName) then Go.Ok false else
  o <- Go.deref (sonatypeiq.OwnerType member) ;;
  if negb (String.eqb o "APPLICATION") then Go.Ok false else
  i <- Go.deref (sonatypeiq.OwnerId member) ;;
  Go.Ok (String.eqb i (types.ValueString (ApplicationId data))).

(** The inner loop over [roleMembership.Members].  The variable
    [applicationRoleMembership] is carried as the position of the
    iteration that assigned it last, [None] while it is nil; the loop has
    no [break]. *)
Fixpoint scanMembers (data : applicationRoleMembershipModelResource)
         (memberType memberName : string) (i j : nat)
         (members : list sonatypeiq.ApiMemberDTO)
         (applicationRoleMembership : option Ref) : Go.Exec (option Ref) :=
  match members with
  | [] => Go.Ok applicationRoleMembership
  | member :: rest =>
      hit <- memberMatches data memberType memberName member ;;
      scanMembers data memberType memberName i (S j) rest
                  (if hit then Some (i, j) else applicationRoleMembership)
  end.

(** The outer loop over [roleMemberships.MemberMappings]. *)
Fixpoint scanMappings (data : applicationRoleMembershipModelResource)
         (memberType memberName : string) (i : nat)
         (mappings : list sonatypeiq.ApiRoleMemberMappingDTO)
         (applicationRoleMembership : option Ref) : Go.Exec (option Ref) :=
  match mappings with
  | [] => Go.Ok applicationRoleMembership
  | roleMembership :: rest =>
      roleId <- Go.deref (sonatypeiq.RoleId roleMembership) ;;
      found <-
        (if String.eqb roleId (types.ValueString (RoleId data))
         then scanMembers data memberType memberName i 0
                          (sonatypeiq.Members roleMembership)
                          applicationRoleMembership
         else Go.Ok applicationRoleMembership) ;;
      scanMappings data memberType memberName (S i) rest found
  end.

(** "Find our application role membership mapping". *)
Definition find (data : applicationRoleMembershipModelResource)
           (mappings : list sonatypeiq.ApiRoleMemberMappingDTO)
  : Go.Exec (option Ref) :=
  let '(memberType, memberName) := member "GROUP" "USER" data in
  scanMappings data memberType memberName 0 mappings None.

Definition Read (host : resource.Host) (client : sonatypeiq.APIClient)
           (data : applicationRoleMembershipModelResource)
  : Run applicationRoleMembershipModelResource :=
  let diags := resource.GetDiags host in
  if diag.HasError diags then done [] diags resource.Untouched
  else
    let apiRequest := listRequest data in
    let '(roleMemberships, apiResponse, err) :=
      sonatypeiq.GetRoleMembershipsApplicationOrOrganizationExecute
        client apiRequest in
    let trace :=
      [ sonatypeiq.CallGetRoleMembershipsApplicationOrOrganization apiRequest ] in
    match err with
    | Some e =>
        match apiResponse with
        | None => panic trace
        | Some r =>
            if Nat.eqb (http.StatusCode r) http.StatusNotFound
            then done trace diags resource.Removed
            else
              done trace
                   (diag.AddError diags
                      "Error Reading IQ application role membership"
                      ("Could not read applicaton role membership with ID "
                         ++ types.ValueString (ID data) ++ ": " ++ e))
                   resource.Untouched
        end
    | None =>
        match
          (listing <- Go.deref roleMemberships ;;
           find data (sonatypeiq.MemberMappings listing))
        with
        | Go.Panic => panic trace
        | Go.Ok None => done trace diags resource.Removed
        | Go.Ok (Some _) => finish trace (resource.StateSet host diags data)
        end
    end.

Definition Delete (host : resource.Host) (client : sonatypeiq.APIClient)
           (data : applicationRoleMembershipModelResource)
  : Run applicationRoleMembershipModelResource :=
  let diags := resource.GetDiags host in
  if diag.HasError diags then done [] diags resource.Untouched
  else
    let apiRequest := grantRequest data in
    let '(apiResponse, err) :=
      sonatypeiq.RevokeRoleMembershipApplicationOrOrganizationExecute
        client apiRequest in
    let trace :=
      [ sonatypeiq.CallRevokeRoleMembershipApplicationOrOrganization apiRequest ] in
    match err with
    | Some _ =>
        match apiResponse with
        | None => panic trace
        | Some r =>
            done trace
                 (diag.AddError diags
                    "Error deleting application role membership"
                    ("Could not delete application role membership, unexpected error: "
                       ++ http.Status r ++ ": " ++ http.Body r))
                 resource.Untouched
        end
    | None => done trace diags resource.Untouched
    end.

(** [Metadata]: the resource type name. *)
Definition Metadata (ProviderTypeName : string) : string :=
  ProviderTypeName ++ "_application_role_membership".

Definition Schema : schema.Schema :=
  [ ("id",
     {| schema.Required := false; schema.Optional := false;
        schema.Computed := true; schema.Description := "" |});
    ("role_id",
     {| schema.Required := true; schema.Optional := false;
        schema.Computed := false; schema.Description := "" |});
    ("application_id",
     {| schema.Required := true; schema.Optional := false;
        schema.Computed := false; schema.Description := "" |});
    ("user_name",
     {| schema.Required := false; schema.Optional := true;
        schema.Computed := false; schema.Description := "" |});
    ("group_name",
     {| schema.Required := false; schema.Optional := true;
        schema.Computed := false; schema.Description := "" |}) ].

(** The fields of [applicationRoleMembershipModelResource]: [tfsdk] tag and
    type. *)
Definition fields : list (string * schema.Kind) :=
  [ ("id", schema.KString);
    ("role_id", schema.KString);
    ("application_id", schema.KString);
    ("user_name", schema.KString);
    ("group_name", schema.KString) ].

End Membership.

(** ** Vocabulary of the properties *)

Module Spec.

(** [contains s sub]: [sub] occurs in [s] ([strings.Contains]). *)
Fixpoint contains (s sub : string) : bool :=
  String.prefix sub s
  || match s with
     | EmptyString => false
     | String _ rest => contains rest sub
     end.

Definition Infix (sub s : string) : Prop :=
  exists pre post, s = (pre ++ sub ++ post)%string.

Fixpoint indexed {A} (j : nat) (l : list A) : list (nat * A) :=
  match l with
  | [] => []
  | a :: rest => (j, a) :: indexed (S j) rest
  end.

(** One listed member with its position and the role id of its mapping. *)
Definition Entry := (Membership.Ref * (option string * sonatypeiq.ApiMemberDTO))%type.

Definition membersOf (i j : nat) (roleId : option string)
           (members : list sonatypeiq.ApiMemberDTO) : list Entry :=
  map (fun jm => ((i, fst jm), (roleId, snd jm))) (indexed j members).

Fixpoint entriesFrom (i : nat) (mappings : list sonatypeiq.ApiRoleMemberMappingDTO)
  : list Entry :=
  match mappings with
  | [] => []
  | rm :: rest =>
      membersOf i 0 (sonatypeiq.RoleId rm) (sonatypeiq.Members rm)
        ++ entriesFrom (S i) rest
  end.

(** All listed members in list order. *)
Definition entries := entriesFrom 0.

Definition holds (o : option string) (s : string) : bool :=
  match o with
  | Some v => String.eqb v s
  | None => false
  end.

(** The entry carries the stored role id and the stored discriminants:
    member kind, member name, owner kind "APPLICATION" and owner id. *)
Definition matches (data : Membership.applicationRoleMembershipModelResource)
           (e : Entry) : bool :=
  let '(memberType, memberName) := Membership.member "GROUP" "USER" data in
  let '(roleId, m) := snd e in
  holds roleId (types.ValueString (Membership.RoleId data))
  && holds (sonatypeiq.Type_ m) memberType
  && holds (sonatypeiq.UserOrGroupName m) memberName
  && holds (sonatypeiq.OwnerType m) "APPLICATION"
  && holds (sonatypeiq.OwnerId m) (types.ValueString (Membership.ApplicationId data)).

(** The member part of [matches]. *)
Definition memberPart (data : Membership.applicationRoleMembershipModelResource)
           (m : sonatypeiq.ApiMemberDTO) : bool :=
  holds (sonatypeiq.Type_ m) (fst (Membership.member "GROUP" "USER" data))
  && holds (sonatypeiq.UserOrGroupName m)
           (snd (Membership.member "GROUP" "USER" data))
  && holds (sonatypeiq.OwnerType m) "APPLICATION"
  && holds (sonatypeiq.OwnerId m)
           (types.ValueString (Membership.ApplicationId data)).

(** The value the scan leaves in [applicationRoleMembership] after the
    entries [es], listed in order, starting from [acc]. *)
Definition latest (data : Membership.applicationRoleMembershipModelResource)
           (es : list Entry) (acc : option Membership.Ref)
  : option Membership.Ref :=
  match List.find (matches data) (rev es) with
  | Some e => Some (fst e)
  | None => acc
  end.


Definition lastMatch (data : Membership.applicationRoleMembershipModelResource)
           (mappings : list sonatypeiq.ApiRoleMemberMappingDTO)
  : option Membership.Ref :=
  option_map fst (List.find (matches data) (rev (entries mappings))).




(** The member makes the inner [if] dereference a nil field: going left to
    right, a field is nil while every field before it equals the wanted
    value. *)
Definition memberFaults (data : Membership.applicationRoleMembershipModelResource)
           (m : sonatypeiq.ApiMemberDTO) : bool :=
  let '(memberType, memberName) := Membership.member "GROUP" "USER" data in
  match sonatypeiq.Type_ m with
  | None => true
  | Some t =>
      String.eqb t memberType
      && match sonatypeiq.UserOrGroupName m with
         | None => true
         | Some n =>
             String.eqb n memberName
             && match sonatypeiq.OwnerType m with
                | None => true
                | Some o =>
                    String.eqb o "APPLICATION"
                    && match sonatypeiq.OwnerId m with
                       | None => true
                       | Some _ => false
                       end
                end
         end
  end.

(** The mapping makes the scan dereference a nil field: its role id is nil,
    or it carries the stored role id and one of its members faults. *)
Definition mappingFaults (data : Membership.applicationRoleMembershipModelResource)
           (rm : sonatypeiq.ApiRoleMemberMappingDTO) : bool :=
  match sonatypeiq.RoleId rm with
  | None => true
  | Some r =>
      String.eqb r (types.ValueString (Membership.RoleId data))
      && existsb (memberFaults data) (sonatypeiq.Members rm)
  end.

Definition faults (data : Membership.applicationRoleMembershipModelResource)
           (mappings : list sonatypeiq.ApiRoleMemberMappingDTO) : bool :=
  existsb (mappingFaults data) mappings.

(** Some mapping with the stored role id lists the stored member. *)
Definition listed (data : Membership.applicationRoleMembershipModelResource)
           (mappings : list sonatypeiq.ApiRoleMemberMappingDTO) : bool :=
  existsb (fun rm =>
             holds (sonatypeiq.RoleId rm) (types.ValueString (Membership.RoleId data))
             && existsb (memberPart data) (sonatypeiq.Members rm))
          mappings.

(** The string does not contain the separator of the synthetic id. *)
Fixpoint separatorFree (s : string) : bool :=
  match s with
  | EmptyString => true
  | String c rest => negb (Ascii.eqb c "_") && separatorFree rest
  end.

(** The values a membership record is identified by: application id, role
    id, member kind and member name. *)
Definition discriminants (data : Membership.applicationRoleMembershipModelResource)
  : string * string * string * string :=
  (types.ValueString (Membership.ApplicationId data),
   types.ValueString (Membership.RoleId data),
   fst (Membership.member "group" "user" data),
   snd (Membership.member "group" "user" data)).



(** A value is populated when it is known and not null. *)
Definition populated (s : types.String) : bool :=
  match s with types.StringValue _ => true | _ => false end.

(** A client whose every call gets the same reply, by kind of reply. *)
Definition replying
           (entry : option sonatypeiq.ApiSourceControlDTO * option http.Response * Go.error)
           (plain : option http.Response * Go.error)
           (listing : option sonatypeiq.ApiRoleMemberMappingListDTO
                      * option http.Response * Go.error)
  : sonatypeiq.APIClient :=
  {| sonatypeiq.AddSourceControlExecute := fun _ => entry;
     sonatypeiq.GetSourceControl1Execute := fun _ => entry;
     sonatypeiq.DeleteSourceControlExecute := fun _ => plain;
     sonatypeiq.GrantRoleMembershipApplicationOrOrganizationExecute := fun _ => plain;
     sonatypeiq.GetRoleMembershipsApplicationOrOrganizationExecute := fun _ => listing;
     sonatypeiq.RevokeRoleMembershipApplicationOrOrganizationExecute := fun _ => plain |}.

Definition quiet : resource.Host :=
  {| resource.GetDiags := []; resource.SetDiags := [] |}.

Definition response (code : nat) (status body : string) : http.Response :=
  {| http.Status := status; http.StatusCode := code; http.Body := body |}.

Definition ok200 : http.Response := response 200 "200 OK" "".

End Spec.

(** ** Scenarios *)

Module Scenario.

(** [{application_id: "app-1", role_id: "role-9", user_name: "alice"}];
    the computed [id] is unknown in the plan. *)
Definition alice : Membership.applicationRoleMembershipModelResource :=
  {| Membership.ID := types.StringUnknown;
     Membership.RoleId := types.StringValue "role-9";
     Membership.ApplicationId := types.StringValue "app-1";
     Membership.UserName := types.StringValue "alice";
     Membership.GroupName := types.StringNull |}.

Definition granting : sonatypeiq.APIClient :=
  Spec.replying (None, Some Spec.ok200, None)
                (Some Spec.ok200, None)
                (None, Some Spec.ok200, None).

(** Two memberships whose fields contain the separator. *)
Definition splitApp : Membership.applicationRoleMembershipModelResource :=
  {| Membership.ID := types.StringUnknown;
     Membership.RoleId := types.StringValue "c";
     Membership.ApplicationId := types.StringValue "a_b";
     Membership.UserName := types.StringValue "alice";
     Membership.GroupName := types.StringNull |}.

Definition splitRole : Membership.applicationRoleMembershipModelResource :=
  {| Membership.ID := types.StringUnknown;
     Membership.RoleId := types.StringValue "b_c";
     Membership.ApplicationId := types.StringValue "a";
     Membership.UserName := types.StringValue "alice";
     Membership.GroupName := types.StringNull |}.

(** [{organization_id: "org-1", provider: "github",
    repository_url: "https://github.com/x/y", token: "t",
    base_branch: "main"}]. *)
Definition org1 : SourceControl.sourceControlModelResource :=
  {| SourceControl.ID := types.StringUnknown;
     SourceControl.OrganizationID := types.StringValue "org-1";
     SourceControl.ApplicationID := types.StringNull;
     SourceControl.RepositoryURL := types.StringValue "https://github.com/x/y";
     SourceControl.Token := types.StringValue "t";
     SourceControl.BaseBranch := types.StringValue "main";
     SourceControl.Provider := types.StringValue "github";
     SourceControl.RemediationPullRequestsEnabled := types.BoolNull;
     SourceControl.PullRequestCommentingEnabled := types.BoolNull;
     SourceControl.SourceControlEvaluationsEnabled := types.BoolNull |}.

(** The same block with [pull_request_commenting_enabled = true]. *)
Definition org1Commenting : SourceControl.sourceControlModelResource :=
  {| SourceControl.ID := types.StringUnknown;
     SourceControl.OrganizationID := types.StringValue "org-1";
     SourceControl.ApplicationID := types.StringNull;
     SourceControl.RepositoryURL := types.StringValue "https://github.com/x/y";
     SourceControl.Token := types.StringValue "t";
     SourceControl.BaseBranch := types.StringValue "main";
     SourceControl.Provider := types.StringValue "github";
     SourceControl.RemediationPullRequestsEnabled := types.BoolNull;
     SourceControl.PullRequestCommentingEnabled := types.BoolValue true;
     SourceControl.SourceControlEvaluationsEnabled := types.BoolNull |}.

(** A source-control block with neither owner configured, and a
    membership block with both members configured. *)
Definition noOwner : SourceControl.sourceControlModelResource :=
  {| SourceControl.ID := types.StringUnknown;
     SourceControl.OrganizationID := types.StringNull;
     SourceControl.ApplicationID := types.StringNull;
     SourceControl.RepositoryURL := types.StringNull;
     SourceControl.Token := types.StringNull;
     SourceControl.BaseBranch := types.StringNull;
     SourceControl.Provider := types.StringNull;
     SourceControl.RemediationPullRequestsEnabled := types.BoolNull;
     SourceControl.PullRequestCommentingEnabled := types.BoolNull;
     SourceControl.SourceControlEvaluationsEnabled := types.BoolNull |}.

Definition bothMembers : Membership.applicationRoleMembershipModelResource :=
  {| Membership.ID := types.StringUnknown;
     Membership.RoleId := types.StringValue "role-9";
     Membership.ApplicationId := types.StringValue "app-1";
     Membership.UserName := types.StringValue "alice";
     Membership.GroupName := types.StringValue "devs" |}.

(** The record of [org1] as stored after a create that was issued the
    id "sc-1". *)
Definition org1Stored : SourceControl.sourceControlModelResource :=
  SourceControl.withID org1 (types.StringValue "sc-1").

Definition aliceStored : Membership.applicationRoleMembershipModelResource :=
  Membership.withID alice (types.StringValue "app-1_role-9_user_alice").

(** What the service holds for [org1Stored]. *)
Definition remoteEntry : sonatypeiq.ApiSourceControlDTO :=
  {| sonatypeiq.Id := Some "sc-1";
     sonatypeiq.RepositoryUrl := Some "https://github.com/x/z";
     sonatypeiq.Token := Some "#~FAKE~SECRET~KEY~#";
     sonatypeiq.Provider := Some "github";
     sonatypeiq.BaseBranch := Some "develop";
     sonatypeiq.EnablePullRequests := None;
     sonatypeiq.RemediationPullRequestsEnabled := Some true;
     sonatypeiq.PullRequestCommentingEnabled := Some true;
     sonatypeiq.SourceControlEvaluationsEnabled := None |}.

(** [org1Stored] after a refresh from [remoteEntry]. *)
Definition refreshed : SourceControl.sourceControlModelResource :=
  {| SourceControl.ID := types.StringValue "sc-1";
     SourceControl.OrganizationID := types.StringValue "org-1";
     SourceControl.ApplicationID := types.StringNull;
     SourceControl.RepositoryURL := types.StringValue "https://github.com/x/z";
     SourceControl.Token := types.StringValue "#~FAKE~SECRET~KEY~#";
     SourceControl.BaseBranch := types.StringValue "develop";
     SourceControl.Provider := types.StringValue "github";
     SourceControl.RemediationPullRequestsEnabled := types.BoolValue true;
     SourceControl.PullRequestCommentingEnabled := types.BoolValue true;
     SourceControl.SourceControlEvaluationsEnabled := types.BoolValue false |}.

Definition serving : sonatypeiq.APIClient :=
  Spec.replying (Some remoteEntry, Some Spec.ok200, None)
                (Some Spec.ok200, None)
                (None, Some Spec.ok200, None).

(** Every call answered with the non-success response [r]; the client's
    error text is the status line. *)
Definition failing (r : http.Response) : sonatypeiq.APIClient :=
  Spec.replying (None, Some r, Some (http.Status r))
                (Some r, Some (http.Status r))
                (None, Some r, Some (http.Status r)).

Definition serverError : http.Response :=
  Spec.response 500 "500 Internal Server Error" "boom".

Definition notFound : http.Response :=
  Spec.response 404 "404 Not Found" "".

(** No call completes: there is no response, only the transport's
    error. *)
Definition unreachable : sonatypeiq.APIClient :=
  Spec.replying (None, None, Some "dial tcp 127.0.0.1:8070: connect: connection refused")
                (None, Some "dial tcp 127.0.0.1:8070: connect: connection refused")
                (None, None, Some "dial tcp 127.0.0.1:8070: connect: connection refused").

(** A host on which the plan or prior state does not decode. *)
Definition undecodable : resource.Host :=
  {| resource.GetDiags :=
       [ {| diag.Severity_ := diag.SeverityError;
            diag.Summary := "Value Conversion Error";
            diag.Detail := "An unexpected error was encountered trying to build a value." |} ];
     resource.SetDiags := [] |}.

(** Group "devs" in role "role-9" of application "app-1". *)
Definition devs : Membership.applicationRoleMembershipModelResource :=
  {| Membership.ID := types.StringUnknown;
     Membership.RoleId := types.StringValue "role-9";
     Membership.ApplicationId := types.StringValue "app-1";
     Membership.UserName := types.StringNull;
     Membership.GroupName := types.StringValue "devs" |}.

(** A mapping without role id, after a mapping that lists "alice". *)
Definition roleless : list sonatypeiq.ApiRoleMemberMappingDTO :=
  [ {| sonatypeiq.RoleId := Some "role-9";
       sonatypeiq.Members :=
         [ {| sonatypeiq.Type_ := Some "USER";
              sonatypeiq.UserOrGroupName := Some "alice";
              sonatypeiq.OwnerType := Some "APPLICATION";
              sonatypeiq.OwnerId := Some "app-1" |} ] |};
    {| sonatypeiq.RoleId := None; sonatypeiq.Members := [] |} ].

(** Role "role-7" lists a member without any field; role "role-9" lists
    "alice" after a group whose name is missing. *)
Definition sparse : list sonatypeiq.ApiRoleMemberMappingDTO :=
  [ {| sonatypeiq.RoleId := Some "role-7";
       sonatypeiq.Members :=
         [ {| sonatypeiq.Type_ := None;
              sonatypeiq.UserOrGroupName := None;
              sonatypeiq.OwnerType := None;
              sonatypeiq.OwnerId := None |} ] |};
    {| sonatypeiq.RoleId := Some "role-9";
       sonatypeiq.Members :=
         [ {| sonatypeiq.Type_ := Some "GROUP";
              sonatypeiq.UserOrGroupName := None;
              sonatypeiq.OwnerType := None;
              sonatypeiq.OwnerId := None |};
           {| sonatypeiq.Type_ := Some "USER";
              sonatypeiq.UserOrGroupName := Some "alice";
              sonatypeiq.OwnerType := Some "APPLICATION";
              sonatypeiq.OwnerId := Some "app-1" |} ] |} ].


(** The listing entry of user "alice" under application "app-1". *)
Definition aliceEntry : sonatypeiq.ApiMemberDTO :=
  {| sonatypeiq.Type_ := Some "USER";
     sonatypeiq.UserOrGroupName := Some "alice";
     sonatypeiq.OwnerType := Some "APPLICATION";
     sonatypeiq.OwnerId := Some "app-1" |}.


(** Role "role-9" lists the same member twice. *)
Definition duplicated : list sonatypeiq.ApiRoleMemberMappingDTO :=
  [ {| sonatypeiq.RoleId := Some "role-9";
       sonatypeiq.Members := [ aliceEntry; aliceEntry ] |} ].


Definition listing (mappings : list sonatypeiq.ApiRoleMemberMappingDTO)
  : sonatypeiq.APIClient :=
  Spec.replying (None, Some Spec.ok200, None)
                (Some Spec.ok200, None)
                (Some {| sonatypeiq.MemberMappings := mappings |},
                 Some Spec.ok200, None).

End Scenario.

(** Case analysis on every scrutinee of the goal. *)
Ltac by_cases :=
  repeat match goal with
         | |- context [match ?x with _ => _ end] => destruct x eqn:?
         end;
  try reflexivity; try discriminate.

(** ** Properties of the membership identifier *)

Lemma HasError_app (a b : diag.Diagnostics) :
  diag.HasError (a ++ b) = diag.HasError a || diag.HasError b.
Proof. unfold diag.HasError. apply existsb_app. Qed.

Lemma HasError_AddError (ds : diag.Diagnostics) (s d : string) :
  diag.HasError (diag.AddError ds s d) = true.
Proof.
  unfold diag.AddError. rewrite HasError_app. cbn. apply orb_true_r.
Qed.

(** A membership create that persisted a record issued exactly the grant
    call and stored the record it was given with the synthetic id. *)
Lemma membership_create_persisted host client data m :
  persisted (Membership.Create host client data) = Some m ->
  m = Membership.withID data
        (types.StringValue
           (Membership.Sprintf4
              (types.ValueString (Membership.ApplicationId data))
              (types.ValueString (Membership.RoleId data))
              (fst (Membership.member "group" "user" data))
              (snd (Membership.member "group" "user" data))))
  /\ calls (Membership.Create host client data)
     = [ sonatypeiq.CallGrantRoleMembershipApplicationOrOrganization
           (Membership.memberRequest data
              (fst (Membership.member "group" "user" data))
              (snd (Membership.member "group" "user" data))) ].
Proof.
  unfold Membership.Create, persisted.
  destruct (diag.HasError (resource.GetDiags host)); [discriminate|].
  destruct (Membership.member "group" "user" data) as [memberType memberName].
  cbn [fst snd].
  destruct (sonatypeiq.GrantRoleMembershipApplicationOrOrganizationExecute _ _)
    as [apiResponse [e|]].
  - destruct apiResponse; discriminate.
  - cbn. destruct (diag.HasError (resource.SetDiags host)); [discriminate|].
    intros H. inversion H. split; reflexivity.
Qed.

(** C1. On every successful membership create the stored id is the
    application id, the role id, the member kind and the member name joined
    by "_", the member kind being "group" when [group_name] is set and
    "user" otherwise, and the grant call carries the same five values; the
    id depends on the desired-state record only: any other successful
    create of the same record stores the same id. *)
Theorem membership_create_synthetic_id :
  forall host client data m,
    persisted (Membership.Create host client data) = Some m ->
    let kind :=
      if types.IsNull (Membership.GroupName data) then "user" else "group" in
    let name :=
      if types.IsNull (Membership.GroupName data)
      then types.ValueString (Membership.UserName data)
      else types.ValueString (Membership.GroupName data) in
    let app := types.ValueString (Membership.ApplicationId data) in
    let role := types.ValueString (Membership.RoleId data) in
    Membership.ID m
    = types.StringValue (app ++ "_" ++ role ++ "_" ++ kind ++ "_" ++ name)
    /\ calls (Membership.Create host client data)
       = [ sonatypeiq.CallGrantRoleMembershipApplicationOrOrganization
             {| sonatypeiq.m_ownerType := "application";
                sonatypeiq.m_internalOwnerId := app;
                sonatypeiq.m_roleId := role;
                sonatypeiq.m_memberType := kind;
                sonatypeiq.m_memberName := name |} ]
    /\ forall host' client' m',
        persisted (Membership.Create host' client' data) = Some m' ->
        Membership.ID m' = Membership.ID m.
Proof.
  intros host client data m H kind name app role.
  destruct (membership_create_persisted _ _ _ _ H) as [Hm Hc].
  assert (Hk : Membership.member "group" "user" data = (kind, name)).
  { unfold Membership.member, kind, name.
    destruct (types.IsNull (Membership.GroupName data)); reflexivity. }
  rewrite Hk in Hm, Hc. cbn [fst snd] in Hm, Hc.
  split; [|split].
  - subst m. reflexivity.
  - exact Hc.
  - intros host' client' m' H'.
    destruct (membership_create_persisted _ _ _ _ H') as [Hm' _].
    rewrite Hk in Hm'. subst m m'. reflexivity.
Qed.

Lemma membership_create_synthetic_id_scenario :
  persisted (Membership.Create Spec.quiet Scenario.granting Scenario.alice)
  = Some (Membership.withID Scenario.alice
            (types.StringValue "app-1_role-9_user_alice"))
  /\ calls (Membership.Create Spec.quiet Scenario.granting Scenario.alice)
     = [ sonatypeiq.CallGrantRoleMembershipApplicationOrOrganization
           {| sonatypeiq.m_ownerType := "application";
              sonatypeiq.m_internalOwnerId := "app-1";
              sonatypeiq.m_roleId := "role-9";
              sonatypeiq.m_memberType := "user";
              sonatypeiq.m_memberName := "alice" |} ]
  /\ Membership.ID
       (Membership.withID Scenario.alice
          (types.StringValue "app-1_role-9_user_alice"))
     = types.StringValue "app-1_role-9_user_alice".
Proof.
  assert (H : persisted (Membership.Create Spec.quiet Scenario.granting Scenario.alice)
              = Some (Membership.withID Scenario.alice
                        (types.StringValue "app-1_role-9_user_alice")))
    by reflexivity.
  destruct (membership_create_synthetic_id _ _ _ _ H) as [Hid [Hcalls _]].
  split; [exact H|]. split; [exact Hcalls | exact Hid].
Defined.

(** C10. The identifier derivation is not injective: two memberships with
    different (application id, role id) pairs, each accepted by the
    validators and created successfully, are stored under the same id. *)
Theorem membership_id_collision :
  exists d1 d2 m1 m2,
    (types.ValueString (Membership.ApplicationId d1),
     types.ValueString (Membership.RoleId d1),
     fst (Membership.member "group" "user" d1),
     snd (Membership.member "group" "user" d1))
    <> (types.ValueString (Membership.ApplicationId d2),
        types.ValueString (Membership.RoleId d2),
        fst (Membership.member "group" "user" d2),
        snd (Membership.member "group" "user" d2))
    /\ resourcevalidator.ValidateConfig Membership.ConfigValidators
         (Membership.config d1) = []
    /\ resourcevalidator.ValidateConfig Membership.ConfigValidators
         (Membership.config d2) = []
    /\ persisted (Membership.Create Spec.quiet Scenario.granting d1) = Some m1
    /\ persisted (Membership.Create Spec.quiet Scenario.granting d2) = Some m2
    /\ Membership.ID m1 = Membership.ID m2
    /\ Membership.ID m1 = types.StringValue "a_b_c_user_alice".
Proof.
  exists Scenario.splitApp, Scenario.splitRole.
  eexists. eexists.
  split; [cbn; intros H; discriminate H|].
  split; [reflexivity|]. split; [reflexivity|].
  split; [reflexivity|]. split; [reflexivity|].
  split; reflexivity.
Qed.

(** ** The scan of the membership read *)

Section Scan.

Variable data : Membership.applicationRoleMembershipModelResource.

Local Abbreviation memberType := (fst (Membership.member "GROUP" "USER" data)).
Local Abbreviation memberName := (snd (Membership.member "GROUP" "USER" data)).
Local Abbreviation memberPart := (Spec.memberPart data).
Local Abbreviation latest := (Spec.latest data).

Lemma matches_split (r : Membership.Ref) (roleId : option string)
      (m : sonatypeiq.ApiMemberDTO) :
  Spec.matches data (r, (roleId, m))
  = Spec.holds roleId (types.ValueString (Membership.RoleId data))
    && memberPart m.
Proof.
  unfold Spec.matches, Spec.memberPart.
  destruct (Membership.member "GROUP" "USER" data) as [t n]. cbn [fst snd].
  now rewrite !andb_assoc.
Qed.


Lemma find_over_app {A} (f : A -> bool) (a b : list A) :
  List.find f (a ++ b)
  = match List.find f a with
    | Some x => Some x
    | None => List.find f b
    end.
Proof.
  induction a as [|x a IH]; cbn; [reflexivity|].
  destruct (f x); [reflexivity | exact IH].
Qed.

Lemma latest_app (a b : list Spec.Entry) (acc : option Membership.Ref) :
  latest (a ++ b) acc = latest b (latest a acc).
Proof.
  unfold Spec.latest. rewrite rev_app_distr, find_over_app.
  destruct (List.find (Spec.matches data) (rev b)); reflexivity.
Qed.


Lemma latest_other_role (i j : nat) (roleId : option string)
      (members : list sonatypeiq.ApiMemberDTO) (acc : option Membership.Ref) :
  Spec.holds roleId (types.ValueString (Membership.RoleId data)) = false ->
  latest (Spec.membersOf i j roleId members) acc = acc.
Proof.
  intros Hrole. revert j acc.
  induction members as [|m rest IH]; intros j acc; [reflexivity|].
  change (Spec.membersOf i j roleId (m :: rest))
    with ([((i, j), (roleId, m))] ++ Spec.membersOf i (S j) roleId rest).
  rewrite latest_app, IH.
  unfold Spec.latest. cbn [rev app List.find]. now rewrite matches_split, Hrole.
Qed.





End Scan.








(** ** Absent records *)



(** ** Remote API errors *)

Lemma prefix_append (s t : string) : String.prefix s (s ++ t) = true.
Proof.
  induction s as [|a s IH]; cbn.
  - destruct t; reflexivity.
  - destruct (ascii_dec a a) as [_|Hne]; [exact IH | now elim Hne].
Qed.

Lemma contains_infix (s sub : string) : Spec.Infix sub s -> Spec.contains s sub = true.
Proof.
  intros (pre & post & ->).
  induction pre as [|a pre IH].
  - cbn [append]. destruct (sub ++ post)%string eqn:E; cbn [Spec.contains];
      rewrite <- ?E, prefix_append; reflexivity.
  - cbn [append Spec.contains]. rewrite IH. apply orb_true_r.
Qed.

(** C3 as stated does not hold for reads.  The source-control fetch is
    answered "500 Internal Server Error" with body "boom"; the single
    diagnostic of the read names the stored id and the client's error text,
    and the body occurs nowhere in it. *)
Lemma read_error_omits_body_refuted :
  outcome (SourceControl.Read Spec.quiet (Scenario.failing Scenario.serverError)
                              Scenario.org1Stored)
  = Go.Ok
      {| resource.Diagnostics :=
           [ {| diag.Severity_ := diag.SeverityError;
                diag.Summary := "Error Reading source control entry";
                diag.Detail :=
                  "Could not read source control entry with ID sc-1: 500 Internal Server Error" |} ];
         resource.State := resource.Untouched |}
  /\ http.Body Scenario.serverError = "boom"
  /\ ~ Spec.Infix (http.Body Scenario.serverError)
         "Could not read source control entry with ID sc-1: 500 Internal Server Error".
Proof.
  split; [reflexivity|]. split; [reflexivity|].
  intros H. apply contains_infix in H. vm_compute in H. discriminate H.
Qed.

(** C3, amended.  For every create and delete operation of either entity
    type, a non-success HTTP status (404 included) adds a single error
    diagnostic whose detail is a fixed prefix followed by the HTTP status
    line, ": " and the full response body, the operation aborts and the
    state is left untouched.  For every read operation of either entity
    type, a non-success HTTP status other than 404 adds a single error
    diagnostic whose detail names the stored id followed by ": " and the
    client's error text, the operation aborts and the state is left
    untouched. *)
Theorem remote_error_diagnostic :
  (forall host client data dto r e,
      diag.HasError (resource.GetDiags host) = false ->
      sonatypeiq.AddSourceControlExecute client (SourceControl.createRequest data)
      = (dto, Some r, Some e) ->
      outcome (SourceControl.Create host client data)
      = Go.Ok
          {| resource.Diagnostics :=
               resource.GetDiags host ++
               [ {| diag.Severity_ := diag.SeverityError;
                    diag.Summary := "Error creating source control entry";
                    diag.Detail :=
                      "Could not create source control entry, unexpected error: "
                        ++ http.Status r ++ ": " ++ http.Body r |} ];
             resource.State := resource.Untouched |})
  /\ (forall host client data r e,
        diag.HasError (resource.GetDiags host) = false ->
        sonatypeiq.DeleteSourceControlExecute client (SourceControl.ownerRequest data)
        = (Some r, Some e) ->
        outcome (SourceControl.Delete host client data)
        = Go.Ok
            {| resource.Diagnostics :=
                 resource.GetDiags host ++
                 [ {| diag.Severity_ := diag.SeverityError;
                      diag.Summary := "Error deleting source control entry";
                      diag.Detail :=
                        "Could not delete source control entry, unexpected error: "
                          ++ http.Status r ++ ": " ++ http.Body r |} ];
               resource.State := resource.Untouched |})
  /\ (forall host client data r e,
        diag.HasError (resource.GetDiags host) = false ->
        sonatypeiq.GrantRoleMembershipApplicationOrOrganizationExecute
          client (Membership.grantRequest data)
        = (Some r, Some e) ->
        outcome (Membership.Create host client data)
        = Go.Ok
            {| resource.Diagnostics :=
                 resource.GetDiags host ++
                 [ {| diag.Severity_ := diag.SeverityError;
                      diag.Summary := "Error creating application role membership";
                      diag.Detail :=
                        "Could not create application role membership, unexpected error: "
                          ++ http.Status r ++ ": " ++ http.Body r |} ];
               resource.State := resource.Untouched |})
  /\ (forall host client data r e,
        diag.HasError (resource.GetDiags host) = false ->
        sonatypeiq.RevokeRoleMembershipApplicationOrOrganizationExecute
          client (Membership.grantRequest data)
        = (Some r, Some e) ->
        outcome (Membership.Delete host client data)
        = Go.Ok
            {| resource.Diagnostics :=
                 resource.GetDiags host ++
                 [ {| diag.Severity_ := diag.SeverityError;
                      diag.Summary := "Error deleting application role membership";
                      diag.Detail :=
                        "Could not delete application role membership, unexpected error: "
                          ++ http.Status r ++ ": " ++ http.Body r |} ];
               resource.State := resource.Untouched |})
  /\ (forall host client data dto r e,
        diag.HasError (resource.GetDiags host) = false ->
        sonatypeiq.GetSourceControl1Execute client (SourceControl.ownerRequest data)
        = (dto, Some r, Some e) ->
        http.StatusCode r <> http.StatusNotFound ->
        outcome (SourceControl.Read host client data)
        = Go.Ok
            {| resource.Diagnostics :=
                 resource.GetDiags host ++
                 [ {| diag.Severity_ := diag.SeverityError;
                      diag.Summary := "Error Reading source control entry";
                      diag.Detail :=
                        "Could not read source control entry with ID "
                          ++ types.ValueString (SourceControl.ID data) ++ ": " ++ e |} ];
               resource.State := resource.Untouched |})
  /\ (forall host client data listing r e,
        diag.HasError (resource.GetDiags host) = false ->
        sonatypeiq.GetRoleMembershipsApplicationOrOrganizationExecute
          client (Membership.listRequest data)
        = (listing, Some r, Some e) ->
        http.StatusCode r <> http.StatusNotFound ->
        outcome (Membership.Read host client data)
        = Go.Ok
            {| resource.Diagnostics :=
                 resource.GetDiags host ++
                 [ {| diag.Severity_ := diag.SeverityError;
                      diag.Summary := "Error Reading IQ application role membership";
                      diag.Detail :=
                        "Could not read applicaton role membership with ID "
                          ++ types.ValueString (Membership.ID data) ++ ": " ++ e |} ];
               resource.State := resource.Untouched |}).
Proof.
  repeat split.
  - intros host client data dto r e Hget Hreply.
    unfold SourceControl.Create. now rewrite Hget, Hreply.
  - intros host client data r e Hget Hreply.
    unfold SourceControl.Delete. now rewrite Hget, Hreply.
  - intros host client data r e Hget Hreply.
    unfold Membership.Create. rewrite Hget.
    unfold Membership.grantRequest in Hreply.
    destruct (Membership.member "group" "user" data) as [t n].
    now rewrite Hreply.
  - intros host client data r e Hget Hreply.
    unfold Membership.Delete. now rewrite Hget, Hreply.
  - intros host client data dto r e Hget Hreply Hcode.
    unfold SourceControl.Read. rewrite Hget, Hreply.
    apply Nat.eqb_neq in Hcode. now rewrite Hcode.
  - intros host client data listing r e Hget Hreply Hcode.
    unfold Membership.Read. rewrite Hget, Hreply.
    apply Nat.eqb_neq in Hcode. now rewrite Hcode.
Qed.

Lemma remote_error_diagnostic_witness :
  outcome (SourceControl.Create Spec.quiet (Scenario.failing Scenario.serverError)
                                Scenario.org1)
  = Go.Ok
      {| resource.Diagnostics :=
           [ {| diag.Severity_ := diag.SeverityError;
                diag.Summary := "Error creating source control entry";
                diag.Detail :=
                  "Could not create source control entry, unexpected error: 500 Internal Server Error: boom" |} ];
         resource.State := resource.Untouched |}
  /\ outcome (SourceControl.Delete Spec.quiet (Scenario.failing Scenario.notFound)
                                   Scenario.org1Stored)
     = Go.Ok
         {| resource.Diagnostics :=
              [ {| diag.Severity_ := diag.SeverityError;
                   diag.Summary := "Error deleting source control entry";
                   diag.Detail :=
                     "Could not delete source control entry, unexpected error: 404 Not Found: " |} ];
            resource.State := resource.Untouched |}
  /\ outcome (Membership.Create Spec.quiet (Scenario.failing Scenario.serverError)
                                Scenario.alice)
     = Go.Ok
         {| resource.Diagnostics :=
              [ {| diag.Severity_ := diag.SeverityError;
                   diag.Summary := "Error creating application role membership";
                   diag.Detail :=
                     "Could not create application role membership, unexpected error: 500 Internal Server Error: boom" |} ];
            resource.State := resource.Untouched |}
  /\ outcome (Membership.Delete Spec.quiet (Scenario.failing Scenario.serverError)
                                Scenario.aliceStored)
     = Go.Ok
         {| resource.Diagnostics :=
              [ {| diag.Severity_ := diag.SeverityError;
                   diag.Summary := "Error deleting application role membership";
                   diag.Detail :=
                     "Could not delete application role membership, unexpected error: 500 Internal Server Error: boom" |} ];
            resource.State := resource.Untouched |}
  /\ outcome (SourceControl.Read Spec.quiet (Scenario.failing Scenario.serverError)
                                 Scenario.org1Stored)
     = Go.Ok
         {| resource.Diagnostics :=
              [ {| diag.Severity_ := diag.SeverityError;
                   diag.Summary := "Error Reading source control entry";
                   diag.Detail :=
                     "Could not read source control entry with ID sc-1: 500 Internal Server Error" |} ];
            resource.State := resource.Untouched |}
  /\ outcome (Membership.Read Spec.quiet (Scenario.failing Scenario.serverError)
                              Scenario.aliceStored)
     = Go.Ok
         {| resource.Diagnostics :=
              [ {| diag.Severity_ := diag.SeverityError;
                   diag.Summary := "Error Reading IQ application role membership";
                   diag.Detail :=
                     "Could not read applicaton role membership with ID app-1_role-9_user_alice: 500 Internal Server Error" |} ];
            resource.State := resource.Untouched |}.
Proof.
  destruct remote_error_diagnostic
    as (Hcreate & Hdelete & Hgrant & Hrevoke & Hfetch & Hlist).
  assert (Hcode : http.StatusCode Scenario.serverError <> http.StatusNotFound)
    by (cbn; intros H; discriminate H).
  split; [|split; [|split; [|split; [|split]]]].
  - exact (Hcreate Spec.quiet (Scenario.failing Scenario.serverError)
                   Scenario.org1 None Scenario.serverError
                   "500 Internal Server Error" eq_refl eq_refl).
  - exact (Hdelete Spec.quiet (Scenario.failing Scenario.notFound)
                   Scenario.org1Stored Scenario.notFound
                   "404 Not Found" eq_refl eq_refl).
  - exact (Hgrant Spec.quiet (Scenario.failing Scenario.serverError)
                  Scenario.alice Scenario.serverError
                  "500 Internal Server Error" eq_refl eq_refl).
  - exact (Hrevoke Spec.quiet (Scenario.failing Scenario.serverError)
                   Scenario.aliceStored Scenario.serverError
                   "500 Internal Server Error" eq_refl eq_refl).
  - exact (Hfetch Spec.quiet (Scenario.failing Scenario.serverError)
                  Scenario.org1Stored None Scenario.serverError
                  "500 Internal Server Error" eq_refl eq_refl Hcode).
  - exact (Hlist Spec.quiet (Scenario.failing Scenario.serverError)
                 Scenario.aliceStored None Scenario.serverError
                 "500 Internal Server Error" eq_refl eq_refl Hcode).
Defined.

(** ** Transport failures *)

(** C8 fails on the code.  When the call never completes the client
    returns a nil response together with the error; the error branch of
    every create and delete reads [apiResponse.Body] and
    [apiResponse.Status] through that nil pointer, and the handler panics
    instead of adding a diagnostic. *)
Theorem transport_failure_panics :
  outcome (SourceControl.Create Spec.quiet Scenario.unreachable Scenario.org1)
  = Go.Panic
  /\ outcome (SourceControl.Delete Spec.quiet Scenario.unreachable Scenario.org1Stored)
     = Go.Panic
  /\ outcome (Membership.Create Spec.quiet Scenario.unreachable Scenario.alice)
     = Go.Panic
  /\ outcome (Membership.Delete Spec.quiet Scenario.unreachable Scenario.aliceStored)
     = Go.Panic.
Proof.
  repeat split; reflexivity.
Qed.

(** ** Source-control create and read *)

Lemma source_control_create_cases host client data :
  let reply :=
    sonatypeiq.AddSourceControlExecute client (SourceControl.createRequest data) in
  let stored :=
    SourceControl.withID data (types.StringValue (sonatypeiq.GetId (fst (fst reply)))) in
  (persisted (SourceControl.Create host client data) = Some stored
   /\ raised (SourceControl.Create host client data) = false
   /\ snd reply = None)
  \/ (persisted (SourceControl.Create host client data) = None
      /\ raised (SourceControl.Create host client data) = true).
Proof.
  cbv zeta. unfold persisted, raised, SourceControl.Create.
  destruct (diag.HasError (resource.GetDiags host)) eqn:Hget.
  - right. cbn. auto.
  - destruct (sonatypeiq.AddSourceControlExecute client _)
      as [[dto apiResponse] [e|]]; cbn [fst snd].
    + right. destruct apiResponse as [r|]; cbn; [|auto].
      split; [reflexivity | apply HasError_AddError].
    + cbn. unfold diag.Append. rewrite HasError_app, Hget. cbn.
      destruct (diag.HasError (resource.SetDiags host)); [right | left]; auto.
Qed.


(** C7. A source-control read succeeds exactly when the prior state
    decodes, the fetch returns no error and the state encodes; it then
    stores a record whose identifier, repository URL, token, base branch,
    provider and three feature flags are those of the response, and whose
    [organization_id] and [application_id] are those of the prior state. *)
Theorem source_control_read_overwrites :
  forall host client data m,
    let reply :=
      sonatypeiq.GetSourceControl1Execute client (SourceControl.ownerRequest data) in
    let dto := fst (fst reply) in
    persisted (SourceControl.Read host client data) = Some m
    <-> (diag.HasError (resource.GetDiags host) = false
         /\ snd reply = None
         /\ diag.HasError (resource.SetDiags host) = false
         /\ m = {| SourceControl.ID := types.StringValue (sonatypeiq.GetId dto);
                   SourceControl.OrganizationID := SourceControl.OrganizationID data;
                   SourceControl.ApplicationID := SourceControl.ApplicationID data;
                   SourceControl.RepositoryURL :=
                     types.StringValue (sonatypeiq.GetRepositoryUrl dto);
                   SourceControl.Token :=
                     types.StringValue (sonatypeiq.GetToken dto);
                   SourceControl.BaseBranch :=
                     types.StringValue (sonatypeiq.GetBaseBranch dto);
                   SourceControl.Provider :=
                     types.StringValue (sonatypeiq.GetProvider dto);
                   SourceControl.RemediationPullRequestsEnabled :=
                     types.BoolValue
                       (sonatypeiq.GetRemediationPullRequestsEnabled dto);
                   SourceControl.PullRequestCommentingEnabled :=
                     types.BoolValue
                       (sonatypeiq.GetPullRequestCommentingEnabled dto);
                   SourceControl.SourceControlEvaluationsEnabled :=
                     types.BoolValue
                       (sonatypeiq.GetSourceControlEvaluationsEnabled dto) |}).
Proof.
  intros host client data m. cbv zeta. unfold persisted, SourceControl.Read.
  destruct (diag.HasError (resource.GetDiags host)).
  { cbn. split; [discriminate | intros (H & _); discriminate H]. }
  destruct (sonatypeiq.GetSourceControl1Execute client _)
    as [[dto apiResponse] [e|]]; cbn [fst snd].
  - split; [|intros (_ & H & _); discriminate H].
    destruct apiResponse as [r|]; [|discriminate].
    destruct (Nat.eqb (http.StatusCode r) http.StatusNotFound); discriminate.
  - cbn. destruct (diag.HasError (resource.SetDiags host)).
    + split; [discriminate | intros (_ & _ & H & _); discriminate H].
    + split.
      * intros H. inversion H. repeat split; reflexivity.
      * intros (_ & _ & _ & ->). reflexivity.
Qed.

Lemma source_control_read_overwrites_witness :
  persisted (SourceControl.Read Spec.quiet Scenario.serving Scenario.org1Stored)
  = Some Scenario.refreshed
  /\ SourceControl.ID Scenario.refreshed = types.StringValue "sc-1"
  /\ SourceControl.BaseBranch Scenario.refreshed = types.StringValue "develop"
  /\ SourceControl.OrganizationID Scenario.refreshed
     = SourceControl.OrganizationID Scenario.org1Stored
  /\ SourceControl.ApplicationID Scenario.refreshed
     = SourceControl.ApplicationID Scenario.org1Stored.
Proof.
  assert (H : persisted (SourceControl.Read Spec.quiet Scenario.serving
                                            Scenario.org1Stored)
              = Some Scenario.refreshed) by reflexivity.
  destruct (proj1 (source_control_read_overwrites _ _ _ _) H) as (_ & _ & _ & Hm).
  split; [exact H|]. rewrite Hm. repeat split; reflexivity.
Defined.

(** ** Validation of the discriminants *)

Lemma Apply_rejected {M} vs c (reconcile : Run M) :
  diag.HasError (resourcevalidator.ValidateConfig vs c) = true ->
  calls (resourcevalidator.Apply vs c reconcile) = []
  /\ persisted (resourcevalidator.Apply vs c reconcile) = None
  /\ raised (resourcevalidator.Apply vs c reconcile) = true.
Proof.
  intros H. unfold resourcevalidator.Apply. rewrite H. cbn. auto.
Qed.

(** C4. For a desired-state record of either entity type whose two
    discriminant fields are null or known, validation passes exactly when
    one of the two is populated (organization-id XOR application-id for
    source-control links, user-name XOR group-name for memberships); a
    record with none or with both populated gets an error diagnostic, and
    the reconciler does not run: no call is issued and nothing is
    persisted. *)
Theorem exactly_one_discriminant :
  (forall host client data,
      types.IsUnknown (SourceControl.OrganizationID data) = false ->
      types.IsUnknown (SourceControl.ApplicationID data) = false ->
      let exactlyOne :=
        xorb (Spec.populated (SourceControl.OrganizationID data))
             (Spec.populated (SourceControl.ApplicationID data)) in
      let ds :=
        resourcevalidator.ValidateConfig SourceControl.ConfigValidators
          (SourceControl.config data) in
      let run :=
        resourcevalidator.Apply SourceControl.ConfigValidators
          (SourceControl.config data) (SourceControl.Create host client data) in
      diag.HasError ds = negb exactlyOne
      /\ (exactlyOne = true ->
          ds = [] /\ run = SourceControl.Create host client data)
      /\ (exactlyOne = false ->
          calls run = [] /\ persisted run = None /\ raised run = true))
  /\ (forall host client data,
        types.IsUnknown (Membership.UserName data) = false ->
        types.IsUnknown (Membership.GroupName data) = false ->
        let exactlyOne :=
          xorb (Spec.populated (Membership.UserName data))
               (Spec.populated (Membership.GroupName data)) in
        let ds :=
          resourcevalidator.ValidateConfig Membership.ConfigValidators
            (Membership.config data) in
        let run :=
          resourcevalidator.Apply Membership.ConfigValidators
            (Membership.config data) (Membership.Create host client data) in
        diag.HasError ds = negb exactlyOne
        /\ (exactlyOne = true ->
            ds = [] /\ run = Membership.Create host client data)
        /\ (exactlyOne = false ->
            calls run = [] /\ persisted run = None /\ raised run = true)).
Proof.
  split.
  - intros host client data Horg Happ exactlyOne ds run.
    assert (Hds : ds = (if exactlyOne then [] else ds) /\ diag.HasError ds = negb exactlyOne).
    { unfold ds, exactlyOne.
      destruct data as [id org app url tok br prov f1 f2 f3]. cbn in Horg, Happ |- *.
      destruct org, app; try discriminate; cbn; split; reflexivity. }
    destruct Hds as [Hds Herr]. split; [exact Herr|]. split.
    + intros H1. rewrite H1 in Hds. split; [exact Hds|].
      unfold run, resourcevalidator.Apply. fold ds. now rewrite Hds.
    + intros H0. apply Apply_rejected. fold ds. now rewrite Herr, H0.
  - intros host client data Huser Hgroup exactlyOne ds run.
    assert (Hds : ds = (if exactlyOne then [] else ds) /\ diag.HasError ds = negb exactlyOne).
    { unfold ds, exactlyOne.
      destruct data as [id role app user group]. cbn in Huser, Hgroup |- *.
      destruct user, group; try discriminate; cbn; split; reflexivity. }
    destruct Hds as [Hds Herr]. split; [exact Herr|]. split.
    + intros H1. rewrite H1 in Hds. split; [exact Hds|].
      unfold run, resourcevalidator.Apply. fold ds. now rewrite Hds.
    + intros H0. apply Apply_rejected. fold ds. now rewrite Herr, H0.
Qed.

Lemma exactly_one_discriminant_witness :
  calls (resourcevalidator.Apply SourceControl.ConfigValidators
           (SourceControl.config Scenario.noOwner)
           (SourceControl.Create Spec.quiet Scenario.serving Scenario.noOwner)) = []
  /\ calls (resourcevalidator.Apply Membership.ConfigValidators
              (Membership.config Scenario.bothMembers)
              (Membership.Create Spec.quiet Scenario.granting Scenario.bothMembers)) = []
  /\ resourcevalidator.ValidateConfig Membership.ConfigValidators
       (Membership.config Scenario.alice) = [].
Proof.
  destruct exactly_one_discriminant as [Hsc Hm].
  split; [|split].
  - exact (proj1 (proj2 (proj2 (Hsc Spec.quiet Scenario.serving Scenario.noOwner
                                    eq_refl eq_refl)) eq_refl)).
  - exact (proj1 (proj2 (proj2 (Hm Spec.quiet Scenario.granting Scenario.bothMembers
                                   eq_refl eq_refl)) eq_refl)).
  - exact (proj1 (proj1 (proj2 (Hm Spec.quiet Scenario.granting Scenario.alice
                                   eq_refl eq_refl)) eq_refl)).
Defined.

(** ** The creation payload *)

(** Every field the payload literal of [Create] assigns is nil when the
    configured value is null and points to the configured value when it is
    known. *)
Lemma payload_passes_through data :
  let p := SourceControl.payload data in
  (forall v, SourceControl.BaseBranch data = types.StringValue v ->
             sonatypeiq.BaseBranch p = Some v)
  /\ (SourceControl.BaseBranch data = types.StringNull -> sonatypeiq.BaseBranch p = None)
  /\ (forall v, SourceControl.RepositoryURL data = types.StringValue v ->
                sonatypeiq.RepositoryUrl p = Some v)
  /\ (SourceControl.RepositoryURL data = types.StringNull ->
      sonatypeiq.RepositoryUrl p = None)
  /\ (forall v, SourceControl.Token data = types.StringValue v ->
                sonatypeiq.Token p = Some v)
  /\ (SourceControl.Token data = types.StringNull -> sonatypeiq.Token p = None)
  /\ (forall v, SourceControl.Provider data = types.StringValue v ->
                sonatypeiq.Provider p = Some v)
  /\ (SourceControl.Provider data = types.StringNull -> sonatypeiq.Provider p = None)
  /\ (forall v, SourceControl.RemediationPullRequestsEnabled data = types.BoolValue v ->
                sonatypeiq.RemediationPullRequestsEnabled p = Some v)
  /\ (SourceControl.RemediationPullRequestsEnabled data = types.BoolNull ->
      sonatypeiq.RemediationPullRequestsEnabled p = None)
  /\ (forall v, SourceControl.SourceControlEvaluationsEnabled data = types.BoolValue v ->
                sonatypeiq.SourceControlEvaluationsEnabled p = Some v)
  /\ (SourceControl.SourceControlEvaluationsEnabled data = types.BoolNull ->
      sonatypeiq.SourceControlEvaluationsEnabled p = None).
Proof.
  cbn. repeat split; intros; match goal with H : _ = _ |- _ => rewrite H end;
    reflexivity.
Qed.

(** C9 fails on the code.  For a block with
    [pull_request_commenting_enabled = true] the payload literal leaves the
    request field [PullRequestCommentingEnabled], the one [Read] maps that
    attribute from, absent and puts the flag in [EnablePullRequests]; and
    the request that is executed carries no payload at all, the result of
    the builder call that attaches it being dropped. *)
Theorem create_payload_misses_commenting_flag :
  SourceControl.PullRequestCommentingEnabled Scenario.org1Commenting
  = types.BoolValue true
  /\ sonatypeiq.PullRequestCommentingEnabled
       (SourceControl.payload Scenario.org1Commenting) = None
  /\ sonatypeiq.EnablePullRequests
       (SourceControl.payload Scenario.org1Commenting) = Some true
  /\ sonatypeiq.GetPullRequestCommentingEnabled
       (Some (SourceControl.payload Scenario.org1Commenting)) = false
  /\ calls (SourceControl.Create Spec.quiet Scenario.serving Scenario.org1Commenting)
     = [ sonatypeiq.CallAddSourceControl
           {| sonatypeiq.add_ownerType := "organization";
              sonatypeiq.add_internalOwnerId := "org-1";
              sonatypeiq.apiSourceControlDTO := None |} ]
  /\ (forall data,
        sonatypeiq.PullRequestCommentingEnabled (SourceControl.payload data) = None
        /\ sonatypeiq.apiSourceControlDTO (SourceControl.createRequest data) = None).
Proof.
  repeat split; try reflexivity.
  unfold SourceControl.createRequest.
  destruct (SourceControl.owner data); reflexivity.
Qed.

(** ** Further properties of the handlers *)

Lemma source_control_create_calls host client data :
  calls (SourceControl.Create host client data)
  = if diag.HasError (resource.GetDiags host) then []
    else [ sonatypeiq.CallAddSourceControl (SourceControl.createRequest data) ].
Proof. unfold SourceControl.Create. by_cases. Qed.

Lemma source_control_read_calls host client data :
  calls (SourceControl.Read host client data)
  = if diag.HasError (resource.GetDiags host) then []
    else [ sonatypeiq.CallGetSourceControl1 (SourceControl.ownerRequest data) ].
Proof. unfold SourceControl.Read. by_cases. Qed.

Lemma source_control_delete_calls host client data :
  calls (SourceControl.Delete host client data)
  = if diag.HasError (resource.GetDiags host) then []
    else [ sonatypeiq.CallDeleteSourceControl (SourceControl.ownerRequest data) ].
Proof. unfold SourceControl.Delete. by_cases. Qed.

Lemma membership_create_calls host client data :
  calls (Membership.Create host client data)
  = if diag.HasError (resource.GetDiags host) then []
    else [ sonatypeiq.CallGrantRoleMembershipApplicationOrOrganization
             (Membership.grantRequest data) ].
Proof.
  unfold Membership.Create, Membership.grantRequest.
  destruct (diag.HasError (resource.GetDiags host)); [reflexivity|].
  destruct (Membership.member "group" "user" data) as [t n]. by_cases.
Qed.

Lemma membership_read_calls host client data :
  calls (Membership.Read host client data)
  = if diag.HasError (resource.GetDiags host) then []
    else [ sonatypeiq.CallGetRoleMembershipsApplicationOrOrganization
             (Membership.listRequest data) ].
Proof. unfold Membership.Read. by_cases. Qed.

Lemma membership_delete_calls host client data :
  calls (Membership.Delete host client data)
  = if diag.HasError (resource.GetDiags host) then []
    else [ sonatypeiq.CallRevokeRoleMembershipApplicationOrOrganization
             (Membership.grantRequest data) ].
Proof. unfold Membership.Delete. by_cases. Qed.

Lemma source_control_create_stored host client data m :
  persisted (SourceControl.Create host client data) = Some m ->
  m = SourceControl.withID data
        (types.StringValue
           (sonatypeiq.GetId
              (fst (fst (sonatypeiq.AddSourceControlExecute
                           client (SourceControl.createRequest data)))))).
Proof.
  intros H.
  destruct (source_control_create_cases host client data) as [(Hp & _)|(Hp & _)];
    rewrite Hp in H; [now inversion H | discriminate].
Qed.

(** X1. When the plan or the prior state does not decode, every handler of
    both resources returns at once: it issues no call, leaves the state
    untouched and reports the decoding diagnostics only. *)
Theorem decode_failure_stops :
  forall host client (sc : SourceControl.sourceControlModelResource)
         (ms : Membership.applicationRoleMembershipModelResource),
    diag.HasError (resource.GetDiags host) = true ->
    SourceControl.Create host client sc
    = done [] (resource.GetDiags host) resource.Untouched
    /\ SourceControl.Read host client sc
       = done [] (resource.GetDiags host) resource.Untouched
    /\ SourceControl.Delete host client sc
       = done [] (resource.GetDiags host) resource.Untouched
    /\ Membership.Create host client ms
       = done [] (resource.GetDiags host) resource.Untouched
    /\ Membership.Read host client ms
       = done [] (resource.GetDiags host) resource.Untouched
    /\ Membership.Delete host client ms
       = done [] (resource.GetDiags host) resource.Untouched.
Proof.
  intros host client sc ms H.
  unfold SourceControl.Create, SourceControl.Read, SourceControl.Delete,
    Membership.Create, Membership.Read, Membership.Delete.
  rewrite H. repeat split.
Qed.

Lemma decode_failure_stops_witness :
  calls (SourceControl.Create Scenario.undecodable Scenario.serving Scenario.org1) = []
  /\ persisted (Membership.Create Scenario.undecodable Scenario.granting Scenario.alice)
     = None.
Proof.
  destruct (decode_failure_stops Scenario.undecodable Scenario.serving
              Scenario.org1 Scenario.alice eq_refl)
    as (Hsc & _ & _ & _).
  destruct (decode_failure_stops Scenario.undecodable Scenario.granting
              Scenario.org1 Scenario.alice eq_refl)
    as (_ & _ & _ & Hm & _).
  split; [rewrite Hsc | rewrite Hm]; reflexivity.
Defined.

(** X2. Once its input decodes, every handler issues exactly one call,
    whatever the service answers and also when the handler panics: the
    create, fetch and delete calls of a source-control record, and the
    grant, list and revoke calls of a membership.  No call is repeated. *)
Theorem one_call_per_invocation :
  forall host client (sc : SourceControl.sourceControlModelResource)
         (ms : Membership.applicationRoleMembershipModelResource),
    diag.HasError (resource.GetDiags host) = false ->
    calls (SourceControl.Create host client sc)
    = [ sonatypeiq.CallAddSourceControl (SourceControl.createRequest sc) ]
    /\ calls (SourceControl.Read host client sc)
       = [ sonatypeiq.CallGetSourceControl1 (SourceControl.ownerRequest sc) ]
    /\ calls (SourceControl.Delete host client sc)
       = [ sonatypeiq.CallDeleteSourceControl (SourceControl.ownerRequest sc) ]
    /\ calls (Membership.Create host client ms)
       = [ sonatypeiq.CallGrantRoleMembershipApplicationOrOrganization
             (Membership.grantRequest ms) ]
    /\ calls (Membership.Read host client ms)
       = [ sonatypeiq.CallGetRoleMembershipsApplicationOrOrganization
             (Membership.listRequest ms) ]
    /\ calls (Membership.Delete host client ms)
       = [ sonatypeiq.CallRevokeRoleMembershipApplicationOrOrganization
             (Membership.grantRequest ms) ].
Proof.
  intros host client sc ms H.
  rewrite source_control_create_calls, source_control_read_calls,
    source_control_delete_calls, membership_create_calls,
    membership_read_calls, membership_delete_calls, H.
  repeat split.
Qed.

Lemma one_call_per_invocation_witness :
  calls (SourceControl.Delete Spec.quiet Scenario.unreachable Scenario.org1Stored)
  = [ sonatypeiq.CallDeleteSourceControl
        {| sonatypeiq.ownerType := "organization";
           sonatypeiq.internalOwnerId := "org-1" |} ]
  /\ calls (Membership.Read Spec.quiet Scenario.unreachable Scenario.aliceStored)
     = [ sonatypeiq.CallGetRoleMembershipsApplicationOrOrganization
           {| sonatypeiq.ownerType := "application";
              sonatypeiq.internalOwnerId := "app-1" |} ].
Proof.
  destruct (one_call_per_invocation Spec.quiet Scenario.unreachable
              Scenario.org1Stored Scenario.aliceStored eq_refl)
    as (_ & _ & Hd & _ & Hr & _).
  split; [exact Hd | exact Hr].
Defined.

(** X3. The record a create stored is later addressed under the scope the
    create used: the fetch and the delete of a stored source-control record
    carry the owner type and owner id of its create call, and the revoke of
    a stored membership carries the five values of its grant call. *)
Theorem stored_record_keeps_scope :
  (forall host client data m host' client',
      persisted (SourceControl.Create host client data) = Some m ->
      diag.HasError (resource.GetDiags host') = false ->
      let created := SourceControl.createRequest data in
      let scope :=
        {| sonatypeiq.ownerType := sonatypeiq.add_ownerType created;
           sonatypeiq.internalOwnerId := sonatypeiq.add_internalOwnerId created |} in
      calls (SourceControl.Create host client data)
      = [ sonatypeiq.CallAddSourceControl created ]
      /\ calls (SourceControl.Read host' client' m)
         = [ sonatypeiq.CallGetSourceControl1 scope ]
      /\ calls (SourceControl.Delete host' client' m)
         = [ sonatypeiq.CallDeleteSourceControl scope ])
  /\ (forall host client data m host' client',
        persisted (Membership.Create host client data) = Some m ->
        diag.HasError (resource.GetDiags host') = false ->
        let granted := Membership.grantRequest data in
        calls (Membership.Create host client data)
        = [ sonatypeiq.CallGrantRoleMembershipApplicationOrOrganization granted ]
        /\ calls (Membership.Delete host' client' m)
           = [ sonatypeiq.CallRevokeRoleMembershipApplicationOrOrganization granted ]
        /\ calls (Membership.Read host' client' m)
           = [ sonatypeiq.CallGetRoleMembershipsApplicationOrOrganization
                 {| sonatypeiq.ownerType := sonatypeiq.m_ownerType granted;
                    sonatypeiq.internalOwnerId :=
                      sonatypeiq.m_internalOwnerId granted |} ]).
Proof.
  split.
  - intros host client data m host' client' Hstored Hget created scope.
    assert (Hhost : diag.HasError (resource.GetDiags host) = false).
    { revert Hstored. unfold persisted, SourceControl.Create.
      destruct (diag.HasError (resource.GetDiags host)); [discriminate | reflexivity]. }
    apply source_control_create_stored in Hstored. subst m.
    rewrite source_control_create_calls, source_control_read_calls,
      source_control_delete_calls, Hhost, Hget.
    unfold scope, created, SourceControl.ownerRequest, SourceControl.createRequest,
      SourceControl.owner.
    cbn [SourceControl.withID SourceControl.ApplicationID SourceControl.OrganizationID].
    destruct (negb (types.IsNull (SourceControl.ApplicationID data)));
      repeat split.
  - intros host client data m host' client' Hstored Hget granted.
    assert (Hhost : diag.HasError (resource.GetDiags host) = false).
    { revert Hstored. unfold persisted, Membership.Create.
      destruct (diag.HasError (resource.GetDiags host)); [discriminate | reflexivity]. }
    apply membership_create_persisted in Hstored. destruct Hstored as [-> _].
    rewrite membership_create_calls, membership_read_calls,
      membership_delete_calls, Hhost, Hget.
    unfold granted, Membership.grantRequest, Membership.listRequest,
      Membership.member, Membership.memberRequest.
    cbn [Membership.withID Membership.GroupName Membership.UserName
         Membership.ApplicationId Membership.RoleId].
    destruct (negb (types.IsNull (Membership.GroupName data))); repeat split.
Qed.

Lemma stored_record_keeps_scope_witness :
  calls (SourceControl.Delete Spec.quiet Scenario.serving Scenario.org1Stored)
  = [ sonatypeiq.CallDeleteSourceControl
        {| sonatypeiq.ownerType := "organization";
           sonatypeiq.internalOwnerId := "org-1" |} ]
  /\ calls (Membership.Delete Spec.quiet Scenario.granting Scenario.aliceStored)
     = [ sonatypeiq.CallRevokeRoleMembershipApplicationOrOrganization
           {| sonatypeiq.m_ownerType := "application";
              sonatypeiq.m_internalOwnerId := "app-1";
              sonatypeiq.m_roleId := "role-9";
              sonatypeiq.m_memberType := "user";
              sonatypeiq.m_memberName := "alice" |} ].
Proof.
  destruct stored_record_keeps_scope as [Hsc Hm].
  split.
  - exact (proj2 (proj2 (Hsc Spec.quiet Scenario.serving Scenario.org1
                             Scenario.org1Stored Spec.quiet Scenario.serving
                             eq_refl eq_refl))).
  - exact (proj1 (proj2 (Hm Spec.quiet Scenario.granting Scenario.alice
                            Scenario.aliceStored Spec.quiet Scenario.granting
                            eq_refl eq_refl))).
Defined.

Lemma source_control_read_stored host client data m :
  persisted (SourceControl.Read host client data) = Some m ->
  let dto :=
    fst (fst (sonatypeiq.GetSourceControl1Execute
                client (SourceControl.ownerRequest data))) in
  m = {| SourceControl.ID := types.StringValue (sonatypeiq.GetId dto);
         SourceControl.OrganizationID := SourceControl.OrganizationID data;
         SourceControl.ApplicationID := SourceControl.ApplicationID data;
         SourceControl.RepositoryURL :=
           types.StringValue (sonatypeiq.GetRepositoryUrl dto);
         SourceControl.Token := types.StringValue (sonatypeiq.GetToken dto);
         SourceControl.BaseBranch := types.StringValue (sonatypeiq.GetBaseBranch dto);
         SourceControl.Provider := types.StringValue (sonatypeiq.GetProvider dto);
         SourceControl.RemediationPullRequestsEnabled :=
           types.BoolValue (sonatypeiq.GetRemediationPullRequestsEnabled dto);
         SourceControl.PullRequestCommentingEnabled :=
           types.BoolValue (sonatypeiq.GetPullRequestCommentingEnabled dto);
         SourceControl.SourceControlEvaluationsEnabled :=
           types.BoolValue (sonatypeiq.GetSourceControlEvaluationsEnabled dto) |}.
Proof.
  unfold persisted, SourceControl.Read.
  destruct (diag.HasError (resource.GetDiags host)); [discriminate|].
  destruct (sonatypeiq.GetSourceControl1Execute client _)
    as [[dto apiResponse] [e|]]; cbn [fst snd].
  - destruct apiResponse as [r|]; [|discriminate].
    destruct (Nat.eqb (http.StatusCode r) http.StatusNotFound); discriminate.
  - cbn. destruct (diag.HasError (resource.SetDiags host)); [discriminate|].
    intros H. now inversion H.
Qed.

Lemma ownerRequest_by_owner (d d' : SourceControl.sourceControlModelResource) :
  SourceControl.OrganizationID d = SourceControl.OrganizationID d' ->
  SourceControl.ApplicationID d = SourceControl.ApplicationID d' ->
  SourceControl.ownerRequest d = SourceControl.ownerRequest d'.
Proof.
  intros Horg Happ. unfold SourceControl.ownerRequest, SourceControl.owner.
  now rewrite Horg, Happ.
Qed.

Lemma source_control_read_by_owner host client d d' :
  SourceControl.OrganizationID d = SourceControl.OrganizationID d' ->
  SourceControl.ApplicationID d = SourceControl.ApplicationID d' ->
  persisted (SourceControl.Read host client d)
  = persisted (SourceControl.Read host client d').
Proof.
  intros Horg Happ. unfold persisted, SourceControl.Read.
  rewrite (ownerRequest_by_owner d d' Horg Happ), Horg, Happ.
  destruct (diag.HasError (resource.GetDiags host)); [reflexivity|].
  destruct (sonatypeiq.GetSourceControl1Execute client _)
    as [[dto apiResponse] [e|]]; [|reflexivity].
  destruct apiResponse as [r|]; [|reflexivity].
  destruct (Nat.eqb (http.StatusCode r) http.StatusNotFound); reflexivity.
Qed.

(** X4. What a source-control read stores depends on the prior state
    through its [organization_id] and [application_id] only, and a refresh
    is idempotent: reading the refreshed record again, with the service
    unchanged, stores the same record. *)
Theorem source_control_read_idempotent :
  forall host client d,
    (forall d',
        SourceControl.OrganizationID d = SourceControl.OrganizationID d' ->
        SourceControl.ApplicationID d = SourceControl.ApplicationID d' ->
        persisted (SourceControl.Read host client d)
        = persisted (SourceControl.Read host client d'))
    /\ (forall m,
          persisted (SourceControl.Read host client d) = Some m ->
          persisted (SourceControl.Read host client m) = Some m
          /\ calls (SourceControl.Read host client m)
             = calls (SourceControl.Read host client d)).
Proof.
  intros host client d. split.
  - intros d'. apply source_control_read_by_owner.
  - intros m Hm.
    pose proof (source_control_read_stored host client d m Hm) as Heq.
    cbv zeta in Heq.
    assert (Horg : SourceControl.OrganizationID d = SourceControl.OrganizationID m)
      by (rewrite Heq; reflexivity).
    assert (Happ : SourceControl.ApplicationID d = SourceControl.ApplicationID m)
      by (rewrite Heq; reflexivity).
    split.
    + now rewrite <- (source_control_read_by_owner host client d m Horg Happ).
    + rewrite !source_control_read_calls.
      now rewrite (ownerRequest_by_owner d m Horg Happ).
Qed.



Lemma source_control_read_idempotent_witness :
  persisted (SourceControl.Read Spec.quiet Scenario.serving Scenario.refreshed)
  = Some Scenario.refreshed.
Proof.
  destruct (source_control_read_idempotent Spec.quiet Scenario.serving
              Scenario.org1Stored) as [_ H].
  exact (proj1 (H Scenario.refreshed eq_refl)).
Defined.

(** X6. A membership read never alters the record: when it stores one, it
    is the prior state, field for field, and nothing in it is taken from
    the listing. *)
Theorem membership_read_keeps_record :
  forall host client data m,
    persisted (Membership.Read host client data) = Some m -> m = data.
Proof.
  intros host client data m. unfold persisted, Membership.Read.
  destruct (diag.HasError (resource.GetDiags host)); [discriminate|].
  destruct (sonatypeiq.GetRoleMembershipsApplicationOrOrganizationExecute client _)
    as [[roleMemberships apiResponse] [e|]].
  - destruct apiResponse as [r|]; [|discriminate].
    destruct (Nat.eqb (http.StatusCode r) http.StatusNotFound); discriminate.
  - destruct (listing <- Go.deref roleMemberships ;;
              Membership.find data (sonatypeiq.MemberMappings listing))
      as [|[ref|]]; try discriminate.
    cbn. destruct (diag.HasError (resource.SetDiags host)); [discriminate|].
    intros H. now inversion H.
Qed.

Lemma membership_read_keeps_record_witness :
  persisted (Membership.Read Spec.quiet (Scenario.listing Scenario.duplicated)
                             Scenario.aliceStored)
  = Some Scenario.aliceStored
  /\ Scenario.aliceStored = Scenario.aliceStored.
Proof.
  assert (H : persisted (Membership.Read Spec.quiet
                           (Scenario.listing Scenario.duplicated)
                           Scenario.aliceStored)
              = Some Scenario.aliceStored) by reflexivity.
  split; [exact H|].
  exact (membership_read_keeps_record _ _ _ _ H).
Defined.

(** X7. A delete of either resource never writes or removes state itself,
    and it ends without an error exactly when the prior state decodes and
    the service returns no error; the HTTP response is then not looked at,
    so the delete succeeds even when it is nil. *)
Theorem delete_succeeds_iff_no_error :
  (forall host client data,
      persisted (SourceControl.Delete host client data) = None
      /\ (forall r, outcome (SourceControl.Delete host client data) = Go.Ok r ->
                    resource.State r = resource.Untouched)
      /\ (raised (SourceControl.Delete host client data) = false
          <-> diag.HasError (resource.GetDiags host) = false
              /\ snd (sonatypeiq.DeleteSourceControlExecute
                        client (SourceControl.ownerRequest data)) = None))
  /\ (forall host client data,
        persisted (Membership.Delete host client data) = None
        /\ (forall r, outcome (Membership.Delete host client data) = Go.Ok r ->
                      resource.State r = resource.Untouched)
        /\ (raised (Membership.Delete host client data) = false
            <-> diag.HasError (resource.GetDiags host) = false
                /\ snd (sonatypeiq.RevokeRoleMembershipApplicationOrOrganizationExecute
                          client (Membership.grantRequest data)) = None)).
Proof.
  split; intros host client data.
  - unfold persisted, raised, SourceControl.Delete.
    destruct (diag.HasError (resource.GetDiags host)) eqn:Hget;
      [|destruct (sonatypeiq.DeleteSourceControlExecute client _)
          as [[r0|] [e|]]];
      cbn -[diag.HasError diag.AddError]; rewrite ?HasError_AddError, ?Hget;
      (split; [reflexivity|]);
      (split; [intros r H; try discriminate H; now inversion H|]);
      (split; [try discriminate; auto|]);
      try (intros [H _]; discriminate H); try (intros [_ H]; discriminate H);
      intros _; reflexivity.
  - unfold persisted, raised, Membership.Delete.
    destruct (diag.HasError (resource.GetDiags host)) eqn:Hget;
      [|destruct (sonatypeiq.RevokeRoleMembershipApplicationOrOrganizationExecute
                    client _) as [[r0|] [e|]]];
      cbn -[diag.HasError diag.AddError]; rewrite ?HasError_AddError, ?Hget;
      (split; [reflexivity|]);
      (split; [intros r H; try discriminate H; now inversion H|]);
      (split; [try discriminate; auto|]);
      try (intros [H _]; discriminate H); try (intros [_ H]; discriminate H);
      intros _; reflexivity.
Qed.

Lemma delete_succeeds_iff_no_error_witness :
  raised (SourceControl.Delete Spec.quiet Scenario.serving Scenario.org1Stored) = false
  /\ raised (Membership.Delete Spec.quiet Scenario.granting Scenario.aliceStored) = false.
Proof.
  destruct delete_succeeds_iff_no_error as [Hsc Hm].
  split.
  - apply (proj2 (proj2 (Hsc Spec.quiet Scenario.serving Scenario.org1Stored))).
    split; reflexivity.
  - apply (proj2 (proj2 (Hm Spec.quiet Scenario.granting Scenario.aliceStored))).
    split; reflexivity.
Defined.

(** X8. A membership create stores a record exactly when the plan decodes,
    the grant returns no error and the state encodes; the record is then
    the plan with the synthetic id.  The HTTP response plays no part on
    that path. *)
Theorem membership_create_succeeds_iff :
  forall host client data m,
    persisted (Membership.Create host client data) = Some m
    <-> (diag.HasError (resource.GetDiags host) = false
         /\ snd (sonatypeiq.GrantRoleMembershipApplicationOrOrganizationExecute
                   client (Membership.grantRequest data)) = None
         /\ diag.HasError (resource.SetDiags host) = false
         /\ m = {| Membership.ID :=
                     types.StringValue
                       (types.ValueString (Membership.ApplicationId data)
                          ++ "_" ++ types.ValueString (Membership.RoleId data)
                          ++ "_" ++ fst (Membership.member "group" "user" data)
                          ++ "_" ++ snd (Membership.member "group" "user" data));
                   Membership.RoleId := Membership.RoleId data;
                   Membership.ApplicationId := Membership.ApplicationId data;
                   Membership.UserName := Membership.UserName data;
                   Membership.GroupName := Membership.GroupName data |}).
Proof.
  intros host client data m.
  unfold persisted, Membership.Create, Membership.grantRequest.
  destruct (Membership.member "group" "user" data) as [t n]. cbn [fst snd].
  destruct (diag.HasError (resource.GetDiags host)).
  { cbn. split; [discriminate | intros (H & _); discriminate H]. }
  destruct (sonatypeiq.GrantRoleMembershipApplicationOrOrganizationExecute client _)
    as [apiResponse [e|]]; cbn [fst snd].
  - split; [|intros (_ & H & _); discriminate H].
    destruct apiResponse; discriminate.
  - cbn. destruct (diag.HasError (resource.SetDiags host)).
    + split; [discriminate | intros (_ & _ & H & _); discriminate H].
    + split.
      * intros H. inversion H. repeat split; reflexivity.
      * intros (_ & _ & _ & ->). reflexivity.
Qed.

Lemma membership_create_succeeds_iff_witness :
  persisted (Membership.Create Spec.quiet Scenario.granting Scenario.devs)
  = Some (Membership.withID Scenario.devs
            (types.StringValue "app-1_role-9_group_devs")).
Proof.
  apply (proj2 (membership_create_succeeds_iff Spec.quiet Scenario.granting
                  Scenario.devs _)).
  repeat split; reflexivity.
Defined.

(** X9. When a fetch or a listing never completes, so that the client
    returns an error and a nil response, the read of either resource
    panics: it tests [apiResponse.StatusCode] through the nil pointer. *)
Theorem read_transport_failure_panics :
  (forall host client data dto e,
      diag.HasError (resource.GetDiags host) = false ->
      sonatypeiq.GetSourceControl1Execute client (SourceControl.ownerRequest data)
      = (dto, None, Some e) ->
      outcome (SourceControl.Read host client data) = Go.Panic)
  /\ (forall host client data listing e,
        diag.HasError (resource.GetDiags host) = false ->
        sonatypeiq.GetRoleMembershipsApplicationOrOrganizationExecute
          client (Membership.listRequest data)
        = (listing, None, Some e) ->
        outcome (Membership.Read host client data) = Go.Panic).
Proof.
  split.
  - intros host client data dto e Hget Hreply.
    unfold SourceControl.Read. now rewrite Hget, Hreply.
  - intros host client data listing e Hget Hreply.
    unfold Membership.Read. now rewrite Hget, Hreply.
Qed.

Lemma read_transport_failure_panics_witness :
  outcome (SourceControl.Read Spec.quiet Scenario.unreachable Scenario.org1Stored)
  = Go.Panic
  /\ outcome (Membership.Read Spec.quiet Scenario.unreachable Scenario.aliceStored)
     = Go.Panic.
Proof.
  destruct read_transport_failure_panics as [Hsc Hm].
  split.
  - exact (Hsc Spec.quiet Scenario.unreachable Scenario.org1Stored None _
               eq_refl eq_refl).
  - exact (Hm Spec.quiet Scenario.unreachable Scenario.aliceStored None _
              eq_refl eq_refl).
Defined.

(** ** Uniqueness of the synthetic id *)

Lemma separator_split (a a' x x' : string) :
  Spec.separatorFree a = true ->
  Spec.separatorFree a' = true ->
  (a ++ "_" ++ x)%string = (a' ++ "_" ++ x')%string ->
  a = a' /\ x = x'.
Proof.
  revert a'. induction a as [|c a IH]; intros [|c' a'] Ha Ha' H; cbn in *.
  - inversion H. auto.
  - inversion H; subst c'. cbn in Ha'. discriminate Ha'.
  - inversion H; subst c. cbn in Ha. discriminate Ha.
  - inversion H; subst c'.
    apply andb_true_iff in Ha, Ha'.
    destruct (IH a' (proj2 Ha) (proj2 Ha') H2) as [-> ->]. auto.
Qed.

Lemma member_kind_separatorFree data :
  Spec.separatorFree (fst (Membership.member "group" "user" data)) = true.
Proof.
  unfold Membership.member.
  destruct (negb (types.IsNull (Membership.GroupName data))); reflexivity.
Qed.

(** X10. Apart from separators inside the application id or the role id,
    the synthetic id identifies the membership: two successful creates
    whose application ids and role ids contain no "_" store the same id
    only if they agree on application id, role id, member kind and member
    name (the member name may contain "_"). *)
Theorem synthetic_id_unique_without_separator :
  forall host1 client1 d1 m1 host2 client2 d2 m2,
    persisted (Membership.Create host1 client1 d1) = Some m1 ->
    persisted (Membership.Create host2 client2 d2) = Some m2 ->
    Spec.separatorFree (types.ValueString (Membership.ApplicationId d1)) = true ->
    Spec.separatorFree (types.ValueString (Membership.RoleId d1)) = true ->
    Spec.separatorFree (types.ValueString (Membership.ApplicationId d2)) = true ->
    Spec.separatorFree (types.ValueString (Membership.RoleId d2)) = true ->
    Membership.ID m1 = Membership.ID m2 ->
    Spec.discriminants d1 = Spec.discriminants d2.
Proof.
  intros host1 client1 d1 m1 host2 client2 d2 m2 H1 H2 Ha1 Hr1 Ha2 Hr2 Hid.
  apply membership_create_persisted in H1, H2.
  destruct H1 as [-> _], H2 as [-> _].
  cbn [Membership.withID Membership.ID] in Hid. inversion Hid as [Heq].
  unfold Membership.Sprintf4 in Heq.
  destruct (separator_split _ _ _ _ Ha1 Ha2 Heq) as [Happ Heq1].
  destruct (separator_split _ _ _ _ Hr1 Hr2 Heq1) as [Hrole Heq2].
  destruct (separator_split _ _ _ _ (member_kind_separatorFree d1)
              (member_kind_separatorFree d2) Heq2) as [Hkind Hname].
  unfold Spec.discriminants. now rewrite Happ, Hrole, Hkind, Hname.
Qed.

Lemma synthetic_id_unique_without_separator_witness :
  Spec.discriminants Scenario.alice = Spec.discriminants Scenario.aliceStored.
Proof.
  exact (synthetic_id_unique_without_separator
           Spec.quiet Scenario.granting Scenario.alice
           (Membership.withID Scenario.alice
              (types.StringValue "app-1_role-9_user_alice"))
           Spec.quiet Scenario.granting Scenario.aliceStored
           (Membership.withID Scenario.aliceStored
              (types.StringValue "app-1_role-9_user_alice"))
           eq_refl eq_refl eq_refl eq_refl eq_refl eq_refl eq_refl).
Defined.

(** ** When the scan panics *)

Lemma memberMatches_exact data (m : sonatypeiq.ApiMemberDTO) :
  Membership.memberMatches data
    (fst (Membership.member "GROUP" "USER" data))
    (snd (Membership.member "GROUP" "USER" data)) m
  = if Spec.memberFaults data m then Go.Panic
    else Go.Ok (Spec.memberPart data m).
Proof.
  unfold Membership.memberMatches, Spec.memberFaults, Spec.memberPart.
  destruct (Membership.member "GROUP" "USER" data) as [t n]. cbn [fst snd].
  destruct m as [[ty|] [nm|] [ot|] [oi|]]; cbn;
    repeat match goal with
           | |- context [String.eqb ?a ?b] => destruct (String.eqb a b); cbn
           end; reflexivity.
Qed.

Lemma scanMembers_exact data (i : nat) (roleId : option string)
      (members : list sonatypeiq.ApiMemberDTO) :
  Spec.holds roleId (types.ValueString (Membership.RoleId data)) = true ->
  forall j acc,
    Membership.scanMembers data
      (fst (Membership.member "GROUP" "USER" data))
      (snd (Membership.member "GROUP" "USER" data)) i j members acc
    = if existsb (Spec.memberFaults data) members then Go.Panic
      else Go.Ok (Spec.latest data (Spec.membersOf i j roleId members) acc).
Proof.
  intros Hrole. induction members as [|m rest IH]; intros j acc.
  - reflexivity.
  - cbn [Membership.scanMembers existsb]. rewrite memberMatches_exact.
    destruct (Spec.memberFaults data m); [reflexivity|].
    cbn [Go.bind orb]. rewrite IH.
    destruct (existsb (Spec.memberFaults data) rest); [reflexivity|].
    change (Spec.membersOf i j roleId (m :: rest))
      with ([((i, j), (roleId, m))] ++ Spec.membersOf i (S j) roleId rest).
    rewrite latest_app. f_equal. f_equal.
    unfold Spec.latest. cbn [rev app List.find]. rewrite matches_split, Hrole.
    cbn [andb]. destruct (Spec.memberPart data m); reflexivity.
Qed.

Lemma scanMappings_exact data (mappings : list sonatypeiq.ApiRoleMemberMappingDTO) :
  forall i acc,
    Membership.scanMappings data
      (fst (Membership.member "GROUP" "USER" data))
      (snd (Membership.member "GROUP" "USER" data)) i mappings acc
    = if Spec.faults data mappings then Go.Panic
      else Go.Ok (Spec.latest data (Spec.entriesFrom i mappings) acc).
Proof.
  unfold Spec.faults.
  induction mappings as [|rm rest IH]; intros i acc; [reflexivity|].
  cbn [Membership.scanMappings Spec.entriesFrom existsb].
  unfold Spec.mappingFaults at 1.
  destruct (sonatypeiq.RoleId rm) as [roleId|] eqn:Erole; [|reflexivity].
  cbn [Go.deref Go.bind].
  destruct (String.eqb roleId (types.ValueString (Membership.RoleId data)))
    eqn:Eeq; cbn [andb orb].
  - rewrite (scanMembers_exact data i (Some roleId) _ Eeq).
    destruct (existsb (Spec.memberFaults data) (sonatypeiq.Members rm));
      [reflexivity|].
    cbn [Go.bind orb]. rewrite IH, latest_app. reflexivity.
  - cbn [Go.bind]. rewrite IH, latest_app.
    now rewrite (latest_other_role data i 0 (Some roleId) _ acc Eeq).
Qed.

Lemma find_exact data (mappings : list sonatypeiq.ApiRoleMemberMappingDTO) :
  Membership.find data mappings
  = if Spec.faults data mappings then Go.Panic
    else Go.Ok (Spec.lastMatch data mappings).
Proof.
  unfold Membership.find.
  pose proof (scanMappings_exact data mappings 0 None) as H.
  destruct (Membership.member "GROUP" "USER" data) as [t n].
  cbn [fst snd] in H. rewrite H.
  destruct (Spec.faults data mappings); [reflexivity|].
  unfold Spec.latest, Spec.lastMatch, Spec.entries.
  destruct (List.find (Spec.matches data) (rev (Spec.entriesFrom 0 mappings)));
    reflexivity.
Qed.

Lemma find_none_existsb {A} (f : A -> bool) (l : list A) :
  List.find f l = None <-> existsb f l = false.
Proof.
  induction l as [|a l IH]; cbn; [tauto|].
  destruct (f a); cbn; [split; discriminate | exact IH].
Qed.

Lemma existsb_rev {A} (f : A -> bool) (l : list A) :
  existsb f (rev l) = existsb f l.
Proof.
  induction l as [|a l IH]; cbn; [reflexivity|].
  rewrite existsb_app, IH. cbn. rewrite orb_false_r. apply orb_comm.
Qed.

Lemma existsb_membersOf data i j roleId members :
  existsb (Spec.matches data) (Spec.membersOf i j roleId members)
  = Spec.holds roleId (types.ValueString (Membership.RoleId data))
    && existsb (Spec.memberPart data) members.
Proof.
  revert j. induction members as [|m rest IH]; intros j.
  - cbn. now rewrite andb_false_r.
  - change (Spec.membersOf i j roleId (m :: rest))
      with (((i, j), (roleId, m)) :: Spec.membersOf i (S j) roleId rest).
    cbn [existsb]. rewrite IH, matches_split.
    now rewrite andb_orb_distrib_r.
Qed.

Lemma existsb_entriesFrom data i mappings :
  existsb (Spec.matches data) (Spec.entriesFrom i mappings)
  = Spec.listed data mappings.
Proof.
  revert i. induction mappings as [|rm rest IH]; intros i; [reflexivity|].
  cbn [Spec.entriesFrom]. unfold Spec.listed. cbn [existsb].
  rewrite existsb_app, existsb_membersOf, IH. reflexivity.
Qed.

Lemma lastMatch_listed data mappings :
  Spec.lastMatch data mappings = None <-> Spec.listed data mappings = false.
Proof.
  unfold Spec.lastMatch, Spec.entries.
  rewrite <- (existsb_entriesFrom data 0 mappings), <- existsb_rev,
    <- find_none_existsb.
  destruct (List.find (Spec.matches data) (rev (Spec.entriesFrom 0 mappings)));
    cbn; split; congruence.
Qed.

(** The membership read after a listing that arrived without error, on
    any listing. *)
Lemma membership_read_exact host client data mappings resp :
  diag.HasError (resource.GetDiags host) = false ->
  sonatypeiq.GetRoleMembershipsApplicationOrOrganizationExecute
    client (Membership.listRequest data)
  = (Some {| sonatypeiq.MemberMappings := mappings |}, resp, None) ->
  outcome (Membership.Read host client data)
  = if Spec.faults data mappings then Go.Panic
    else Go.Ok
           (if Spec.listed data mappings
            then resource.StateSet host (resource.GetDiags host) data
            else {| resource.Diagnostics := resource.GetDiags host;
                    resource.State := resource.Removed |}).
Proof.
  intros Hget Hreply. unfold Membership.Read. rewrite Hget, Hreply.
  cbn [Go.deref Go.bind sonatypeiq.MemberMappings]. rewrite find_exact.
  destruct (Spec.faults data mappings); [reflexivity|].
  pose proof (lastMatch_listed data mappings) as Hl.
  destruct (Spec.lastMatch data mappings) as [ref|].
  - destruct (Spec.listed data mappings); [reflexivity|].
    discriminate (proj2 Hl eq_refl).
  - rewrite (proj1 Hl eq_refl). reflexivity.
Qed.

(** X11. After a listing that arrived without error, the membership read
    panics exactly when the scan meets a nil field: a mapping without role
    id, or, under the stored role id, a member one of whose fields is nil
    while the fields before it equal the wanted values.  Members under
    other role ids are never inspected.  Otherwise the read keeps the
    record when some mapping with the stored role id lists the member, and
    signals removal when none does. *)
Theorem membership_read_panics_iff_nil_field :
  forall host client data mappings resp,
    diag.HasError (resource.GetDiags host) = false ->
    sonatypeiq.GetRoleMembershipsApplicationOrOrganizationExecute
      client (Membership.listRequest data)
    = (Some {| sonatypeiq.MemberMappings := mappings |}, resp, None) ->
    (Membership.find data mappings = Go.Panic <-> Spec.faults data mappings = true)
    /\ outcome (Membership.Read host client data)
       = (if Spec.faults data mappings then Go.Panic
          else Go.Ok
                 (if Spec.listed data mappings
                  then resource.StateSet host (resource.GetDiags host) data
                  else {| resource.Diagnostics := resource.GetDiags host;
                          resource.State := resource.Removed |}))
    /\ ((exists rm, In rm mappings /\ sonatypeiq.RoleId rm = None) ->
        outcome (Membership.Read host client data) = Go.Panic)
    /\ ((forall rm, In rm mappings ->
                    exists r, sonatypeiq.RoleId rm = Some r
                              /\ r <> types.ValueString (Membership.RoleId data)) ->
        outcome (Membership.Read host client data)
        = Go.Ok {| resource.Diagnostics := resource.GetDiags host;
                   resource.State := resource.Removed |}).
Proof.
  intros host client data mappings resp Hget Hreply.
  pose proof (membership_read_exact host client data mappings resp Hget Hreply)
    as Hread.
  split; [|split; [exact Hread|split]].
  - rewrite find_exact. destruct (Spec.faults data mappings); split; congruence.
  - intros (rm & Hin & Hnil). rewrite Hread.
    replace (Spec.faults data mappings) with true; [reflexivity|].
    symmetry. apply existsb_exists. exists rm. split; [exact Hin|].
    unfold Spec.mappingFaults. now rewrite Hnil.
  - intros Hother. rewrite Hread.
    assert (Hf : Spec.faults data mappings = false).
    { apply not_true_is_false. intros Hf. apply existsb_exists in Hf.
      destruct Hf as (rm & Hin & Hrm). destruct (Hother rm Hin) as (r & Hr & Hne).
      unfold Spec.mappingFaults in Hrm. rewrite Hr in Hrm.
      apply String.eqb_neq in Hne. rewrite Hne in Hrm. discriminate Hrm. }
    assert (Hl : Spec.listed data mappings = false).
    { apply not_true_is_false. intros Hl. apply existsb_exists in Hl.
      destruct Hl as (rm & Hin & Hrm). destruct (Hother rm Hin) as (r & Hr & Hne).
      rewrite Hr in Hrm. cbn in Hrm.
      apply String.eqb_neq in Hne. rewrite Hne in Hrm. discriminate Hrm. }
    now rewrite Hf, Hl.
Qed.

Lemma membership_read_panics_iff_nil_field_witness :
  outcome (Membership.Read Spec.quiet (Scenario.listing Scenario.roleless)
                           Scenario.aliceStored)
  = Go.Panic
  /\ outcome (Membership.Read Spec.quiet (Scenario.listing Scenario.sparse)
                              Scenario.aliceStored)
     = Go.Ok {| resource.Diagnostics := [];
                resource.State := resource.Stored Scenario.aliceStored |}.
Proof.
  split.
  - apply (membership_read_panics_iff_nil_field
             Spec.quiet (Scenario.listing Scenario.roleless) Scenario.aliceStored
             Scenario.roleless (Some Spec.ok200) eq_refl eq_refl).
    exists {| sonatypeiq.RoleId := None; sonatypeiq.Members := [] |}.
    split; [right; left; reflexivity | reflexivity].
  - exact (proj1 (proj2 (membership_read_panics_iff_nil_field
                           Spec.quiet (Scenario.listing Scenario.sparse)
                           Scenario.aliceStored Scenario.sparse
                           (Some Spec.ok200) eq_refl eq_refl))).
Defined.

Lemma existsb_Permutation {A} (f : A -> bool) (l l' : list A) :
  Permutation l l' -> existsb f l = existsb f l'.
Proof.
  induction 1 as [|x l l' _ IH|x y l|l l' l'' _ IH1 _ IH2]; cbn.
  - reflexivity.
  - now rewrite IH.
  - destruct (f x), (f y); reflexivity.
  - now rewrite IH1.
Qed.

(** X12. The outcome of a membership read does not depend on the order in
    which the service lists the role mappings: two listings that are
    permutations of each other lead to the same outcome, panic included. *)
Theorem membership_read_order_independent :
  forall host client client' data mappings mappings' resp resp',
    Permutation mappings mappings' ->
    diag.HasError (resource.GetDiags host) = false ->
    sonatypeiq.GetRoleMembershipsApplicationOrOrganizationExecute
      client (Membership.listRequest data)
    = (Some {| sonatypeiq.MemberMappings := mappings |}, resp, None) ->
    sonatypeiq.GetRoleMembershipsApplicationOrOrganizationExecute
      client' (Membership.listRequest data)
    = (Some {| sonatypeiq.MemberMappings := mappings' |}, resp', None) ->
    outcome (Membership.Read host client data)
    = outcome (Membership.Read host client' data).
Proof.
  intros host client client' data mappings mappings' resp resp' Hperm Hget H H'.
  rewrite (membership_read_exact host client data mappings resp Hget H),
    (membership_read_exact host client' data mappings' resp' Hget H').
  unfold Spec.faults, Spec.listed.
  now rewrite !(existsb_Permutation _ _ _ Hperm).
Qed.

Lemma membership_read_order_independent_witness :
  outcome (Membership.Read Spec.quiet (Scenario.listing Scenario.sparse)
                           Scenario.aliceStored)
  = outcome (Membership.Read Spec.quiet (Scenario.listing (rev Scenario.sparse))
                             Scenario.aliceStored).
Proof.
  exact (membership_read_order_independent
           Spec.quiet (Scenario.listing Scenario.sparse)
           (Scenario.listing (rev Scenario.sparse)) Scenario.aliceStored
           Scenario.sparse (rev Scenario.sparse) (Some Spec.ok200) (Some Spec.ok200)
           (Permutation_rev Scenario.sparse) eq_refl eq_refl eq_refl).
Defined.

(** ** The computed id, type names and schemas *)

(** X13. A create of either resource does not read the [id] of the plan:
    whatever it holds, the calls issued and the response are the same, and
    the stored id is the one the create derives. *)
Theorem create_ignores_plan_id :
  (forall host client data id,
      SourceControl.Create host client (SourceControl.withID data id)
      = SourceControl.Create host client data)
  /\ (forall host client data id,
        Membership.Create host client (Membership.withID data id)
        = Membership.Create host client data).
Proof.
  split; intros host client data id.
  - unfold SourceControl.Create, SourceControl.createRequest, SourceControl.owner.
    cbn [SourceControl.withID SourceControl.ApplicationID
         SourceControl.OrganizationID].
    by_cases.
  - unfold Membership.Create, Membership.member, Membership.memberRequest.
    cbn [Membership.withID Membership.GroupName Membership.UserName
         Membership.ApplicationId Membership.RoleId].
    by_cases.
Qed.





(** ** The payload literal and the life cycle *)

(** X16. In the payload literal of the source-control create, each of the
    seven assigned fields is absent exactly when the attribute it is taken
    from is null, and holds the attribute's value when that is known; the
    fields [Id] and [PullRequestCommentingEnabled] are absent for every
    plan. *)
Theorem payload_field_presence :
  forall data,
    let p := SourceControl.payload data in
    ((sonatypeiq.BaseBranch p = None
      <-> SourceControl.BaseBranch data = types.StringNull)
     /\ (sonatypeiq.RepositoryUrl p = None
         <-> SourceControl.RepositoryURL data = types.StringNull)
     /\ (sonatypeiq.Token p = None
         <-> SourceControl.Token data = types.StringNull)
     /\ (sonatypeiq.Provider p = None
         <-> SourceControl.Provider data = types.StringNull)
     /\ (sonatypeiq.EnablePullRequests p = None
         <-> SourceControl.PullRequestCommentingEnabled data = types.BoolNull)
     /\ (sonatypeiq.RemediationPullRequestsEnabled p = None
         <-> SourceControl.RemediationPullRequestsEnabled data = types.BoolNull)
     /\ (sonatypeiq.SourceControlEvaluationsEnabled p = None
         <-> SourceControl.SourceControlEvaluationsEnabled data = types.BoolNull))
    /\ ((forall v, SourceControl.BaseBranch data = types.StringValue v ->
                   sonatypeiq.BaseBranch p = Some v)
        /\ (forall v, SourceControl.RepositoryURL data = types.StringValue v ->
                      sonatypeiq.RepositoryUrl p = Some v)
        /\ (forall v, SourceControl.Token data = types.StringValue v ->
                      sonatypeiq.Token p = Some v)
        /\ (forall v, SourceControl.Provider data = types.StringValue v ->
                      sonatypeiq.Provider p = Some v)
        /\ (forall v, SourceControl.PullRequestCommentingEnabled data
                      = types.BoolValue v ->
                      sonatypeiq.EnablePullRequests p = Some v)
        /\ (forall v, SourceControl.RemediationPullRequestsEnabled data
                      = types.BoolValue v ->
                      sonatypeiq.RemediationPullRequestsEnabled p = Some v)
        /\ (forall v, SourceControl.SourceControlEvaluationsEnabled data
                      = types.BoolValue v ->
                      sonatypeiq.SourceControlEvaluationsEnabled p = Some v))
    /\ sonatypeiq.Id p = None
    /\ sonatypeiq.PullRequestCommentingEnabled p = None.
Proof.
  intros [id org app url tok br prov f1 f2 f3]. cbn.
  split; [|split; [|split; reflexivity]].
  - repeat split;
      match goal with
      | |- types.ValueStringPointer ?s = None -> _ =>
          destruct s; cbn; congruence
      | |- types.ValueBoolPointer ?b = None -> _ =>
          destruct b; cbn; congruence
      | |- ?x = _ -> _ => intros ->; reflexivity
      end.
  - repeat split; intros v ->; reflexivity.
Qed.

Lemma payload_field_presence_witness :
  sonatypeiq.BaseBranch (SourceControl.payload Scenario.org1) = Some "main"
  /\ sonatypeiq.RemediationPullRequestsEnabled
       (SourceControl.payload Scenario.org1) = None.
Proof.
  destruct (payload_field_presence Scenario.org1)
    as ((_ & _ & _ & _ & _ & Hnull & _) & (Hknown & _) & _).
  split.
  - exact (Hknown "main" eq_refl).
  - exact (proj2 Hnull eq_refl).
Defined.

(** X17. Create followed by read keeps the identity of a source-control
    record: when the fetch reports the id the create was issued, the
    refreshed record has the stored id, and its [organization_id] and
    [application_id] are those of the plan. *)
Theorem source_control_create_then_read :
  forall host client plan stored host' client' refreshed,
    persisted (SourceControl.Create host client plan) = Some stored ->
    persisted (SourceControl.Read host' client' stored) = Some refreshed ->
    sonatypeiq.GetId
      (fst (fst (sonatypeiq.GetSourceControl1Execute
                   client' (SourceControl.ownerRequest stored))))
    = sonatypeiq.GetId
        (fst (fst (sonatypeiq.AddSourceControlExecute
                     client (SourceControl.createRequest plan)))) ->
    SourceControl.ID refreshed = SourceControl.ID stored
    /\ SourceControl.OrganizationID refreshed = SourceControl.OrganizationID plan
    /\ SourceControl.ApplicationID refreshed = SourceControl.ApplicationID plan
    /\ SourceControl.ownerRequest stored = SourceControl.ownerRequest plan.
Proof.
  intros host client plan stored host' client' refreshed Hc Hr Hid.
  apply source_control_create_stored in Hc.
  apply source_control_read_stored in Hr. cbv zeta in Hr.
  rewrite Hid in Hr. subst refreshed. subst stored.
  repeat split.
Qed.

Lemma source_control_create_then_read_witness :
  SourceControl.ID Scenario.refreshed = SourceControl.ID Scenario.org1Stored
  /\ SourceControl.OrganizationID Scenario.refreshed = types.StringValue "org-1".
Proof.
  destruct (source_control_create_then_read
              Spec.quiet Scenario.serving Scenario.org1 Scenario.org1Stored
              Spec.quiet Scenario.serving Scenario.refreshed
              eq_refl eq_refl eq_refl) as (Hid & Horg & _).
  split; [exact Hid | exact Horg].
Defined.

(** X18. A membership that was created is found again by the read: when
    the listing has no nil field in the scan's way and some mapping with
    the plan's role id lists the member with kind "USER" or "GROUP" (the
    upper-case form of the kind the grant call was given), the plan's
    member name, owner kind "APPLICATION" and the plan's application id,
    the read keeps the stored record. *)
Theorem membership_create_then_read :
  forall host client plan stored host' client' mappings resp rm,
    persisted (Membership.Create host client plan) = Some stored ->
    diag.HasError (resource.GetDiags host') = false ->
    diag.HasError (resource.SetDiags host') = false ->
    sonatypeiq.GetRoleMembershipsApplicationOrOrganizationExecute
      client' (Membership.listRequest stored)
    = (Some {| sonatypeiq.MemberMappings := mappings |}, resp, None) ->
    Spec.faults stored mappings = false ->
    In rm mappings ->
    sonatypeiq.RoleId rm = Some (types.ValueString (Membership.RoleId plan)) ->
    In {| sonatypeiq.Type_ :=
            Some (if types.IsNull (Membership.GroupName plan)
                  then "USER" else "GROUP");
          sonatypeiq.UserOrGroupName :=
            Some (snd (Membership.member "group" "user" plan));
          sonatypeiq.OwnerType := Some "APPLICATION";
          sonatypeiq.OwnerId :=
            Some (types.ValueString (Membership.ApplicationId plan)) |}
       (sonatypeiq.Members rm) ->
    persisted (Membership.Read host' client' stored) = Some stored.
Proof.
  intros host client plan stored host' client' mappings resp rm
         Hc Hget Hset Hreply Hfaults Hrm Hrole Hmember.
  apply membership_create_persisted in Hc. destruct Hc as [Hstored _].
  unfold persisted.
  rewrite (membership_read_exact host' client' stored mappings resp Hget Hreply),
    Hfaults.
  replace (Spec.listed stored mappings) with true.
  { cbn. now rewrite Hset. }
  symmetry. apply existsb_exists. exists rm. split; [exact Hrm|].
  rewrite Hstored at 1.
  cbn [Membership.withID Membership.RoleId]. rewrite Hrole. cbn [Spec.holds].
  rewrite String.eqb_refl. cbn [andb].
  apply existsb_exists. eexists. split; [exact Hmember|].
  rewrite Hstored. unfold Spec.memberPart, Membership.member.
  cbn [Membership.withID Membership.GroupName Membership.UserName
       Membership.ApplicationId sonatypeiq.Type_ sonatypeiq.UserOrGroupName
       sonatypeiq.OwnerType sonatypeiq.OwnerId Spec.holds].
  destruct (types.IsNull (Membership.GroupName plan)); cbn [negb fst snd];
    now rewrite !String.eqb_refl.
Qed.

Lemma membership_create_then_read_witness :
  persisted (Membership.Read Spec.quiet (Scenario.listing Scenario.sparse)
                             Scenario.aliceStored)
  = Some Scenario.aliceStored.
Proof.
  refine (membership_create_then_read
            Spec.quiet Scenario.granting Scenario.alice Scenario.aliceStored
            Spec.quiet (Scenario.listing Scenario.sparse) Scenario.sparse
            (Some Spec.ok200)
            {| sonatypeiq.RoleId := Some "role-9";
               sonatypeiq.Members :=
                 [ {| sonatypeiq.Type_ := Some "GROUP";
                      sonatypeiq.UserOrGroupName := None;
                      sonatypeiq.OwnerType := None;
                      sonatypeiq.OwnerId := None |};
                   Scenario.aliceEntry ] |}
            eq_refl eq_refl eq_refl eq_refl eq_refl _ eq_refl _).
  - right. left. reflexivity.
  - right. left. reflexivity.
Defined.
